(** * Safety-observation portal: create flow, edit flow, reports table and
    PDF image cache, embedded from the TypeScript sources.

    The React components are embedded as state-passing programs.  Every
    component keeps its [useState] variables in a record; the hosted backend
    (relational store, object storage, auth) is one [world] value that also
    records, in order, every request a handler sends.  A request can fail:
    the [faults] oracle of the world decides, per request number, whether the
    backend answers with an error object; a failed request leaves the store
    as it was. *)

From Stdlib Require Import ZArith String List Lia.
From stdpp Require Import base tactics option list strings gmap pretty.

Local Open Scope Z_scope.

(** ** JavaScript values *)

Module Js.

(** What [if (s)] tests on a string: only the empty string is falsy. *)
Definition truthy (s : string) : bool := bool_decide (s ≠ "").

(** [s.startsWith(p)] *)
Definition startsWith (s p : string) : bool := String.prefix p s.

(** A thrown value: [instanceof_Error] tells an [Error] object from the plain
    error object of a backend reply. *)
Record exn := Exn { instanceof_Error : bool; message : string }.

Definition Error (msg : string) : exn := Exn true msg.

(** A browser [File]; only its name is read. *)
Record File := { file_name : string }.

(** JS [x || d] on a nullable number. *)
Definition or_zero (c : option Z) : Z :=
  match c with
  | Some n => n
  | None => 0
  end.

(** [Math.ceil(a / b)] on integers, [b > 0]: [Z.div] rounds down. *)
Definition ceil_div (a b : Z) : Z := - ((- a) / b).

End Js.

(** ** The hosted backend *)

Module Backend.

Record name_row := { nr_id : string; nr_name : string }.

(** Columns of [observation_details] written by both the create and the edit
    flow.  [supporting_image = None] is SQL [null]. *)
Record observation_fields := {
  project_id : string;
  company_id : string;
  submitter_name : string;
  date : string;
  time : string;
  department : string;
  location : string;
  description : string;
  report_group : string;
  consequences : string;
  likelihood : string;
  status : string;
  subject : string;
  supporting_image : option string
}.

Record observation_insert := {
  oi_fields : observation_fields;
  oi_corrective_action : bool;
  oi_created_by : string
}.

Record observation_row := {
  obs_id : string;
  obs_fields : observation_fields;
  obs_corrective_action : bool;
  obs_created_by : string;
  obs_created_at : string
}.

Record category_link := {
  cl_observation_id : string;
  cl_category_id : string
}.

(** Payload of one row of an [action_plans] insert. *)
Record action_plan_insert := {
  api_observation_id : string;
  api_action : string;
  api_due_date : string;
  api_responsible_person : string;
  api_follow_up_contact : string;
  api_status : string;
  api_created_by : string
}.

Record action_plan_row := {
  ap_id : string;
  ap_observation_id : string;
  ap_action : string;
  ap_due_date : string;
  ap_responsible_person : string;
  ap_follow_up_contact : string;
  ap_status : string;
  ap_supporting_image : option string;
  ap_created_by : string
}.

Record database := {
  projects : list name_row;
  companies : list name_row;
  observation_details : list observation_row;
  action_plans : list action_plan_row;
  observation_categories : list category_link
}.

(** *** The paginated read of the reports table *)

Inductive filter_op :=
  | Gte (column value : string)
  | Lte (column value : string)
  | Eq (column value : string).

(** What a query built by chained calls asks for.  [q_range] is the pair given
    to [.range(from, to)], both ends included.  [q_count] is the [count]
    option of [.select(columns, options)]; the store reports a total only when
    it is given. *)
Record query := {
  q_order : string;
  q_ascending : bool;
  q_filters : list filter_op;
  q_range : Z * Z;
  q_count : option string
}.

Inductive request :=
  | Upload (bucket key : string)
  | InsertObservation (p : observation_insert)
  | InsertCategories (rows : list category_link)
  | InsertActionPlans (rows : list action_plan_insert)
  | UpdateObservation (id : string) (p : observation_fields)
  | UpdateActionPlansStatus (observation_id new_status : string)
  | DeleteCategories (observation_id : string)
  | DeleteActionPlans (observation_id : string)
  | DeleteObservation (id : string)
  | SelectReports (q : query)
  | Fetch (url : string).

(** Things the page shows or does besides its own state. *)
Inductive ui_event :=
  | ToastError (msg : string)
  | ToastSuccess (msg : string)
  | Navigate (path : string)
  | WriteFile (name : string) (sheet : list (list (string * string))).

(** Values the store fills in on insert. *)
Record row_defaults := { new_id : string; now_iso : string }.

(** Everything outside the page.  [web] gives, for an address, the fetched
    content already converted to a data URL ([None]: the reply is not [ok]);
    [latency n] is the time the [n]-th request takes; [faults n] is the error
    the [n]-th request is answered with, if any; [defaults n j] are the values
    the store fills in for row [j] of the [n]-th request. *)
Record world := {
  db : database;
  bucket_objects : list (string * string);
  web : string -> option string;
  session_user : option string;
  clock : Z;
  latency : nat -> Z;
  trace : list request;
  faults : nat -> option Js.exn;
  defaults : nat -> nat -> row_defaults;
  events : list ui_event
}.

Definition with_db (d : database) (w : world) : world :=
  {| db := d; bucket_objects := bucket_objects w; web := web w;
     session_user := session_user w; clock := clock w; latency := latency w;
     trace := trace w; faults := faults w; defaults := defaults w;
     events := events w |}.

Definition with_bucket_objects (o : list (string * string)) (w : world) : world :=
  {| db := db w; bucket_objects := o; web := web w;
     session_user := session_user w; clock := clock w; latency := latency w;
     trace := trace w; faults := faults w; defaults := defaults w;
     events := events w |}.

(** The request is recorded and the time it takes passes. *)
Definition sent (r : request) (w : world) : world :=
  {| db := db w; bucket_objects := bucket_objects w; web := web w;
     session_user := session_user w;
     clock := clock w + latency w (length (trace w)); latency := latency w;
     trace := trace w ++ [r]; faults := faults w; defaults := defaults w;
     events := events w |}.

Definition with_events (e : list ui_event) (w : world) : world :=
  {| db := db w; bucket_objects := bucket_objects w; web := web w;
     session_user := session_user w; clock := clock w; latency := latency w;
     trace := trace w; faults := faults w; defaults := defaults w;
     events := e |}.

Definition with_observation_details (l : list observation_row) (d : database) : database :=
  {| projects := projects d; companies := companies d;
     observation_details := l; action_plans := action_plans d;
     observation_categories := observation_categories d |}.

Definition with_action_plans (l : list action_plan_row) (d : database) : database :=
  {| projects := projects d; companies := companies d;
     observation_details := observation_details d; action_plans := l;
     observation_categories := observation_categories d |}.

Definition with_observation_categories (l : list category_link) (d : database) : database :=
  {| projects := projects d; companies := companies d;
     observation_details := observation_details d;
     action_plans := action_plans d; observation_categories := l |}.

(** *** Effect of a successful request on the store *)

Definition store_observation (df : row_defaults) (p : observation_insert) : observation_row :=
  {| obs_id := new_id df; obs_fields := oi_fields p;
     obs_corrective_action := oi_corrective_action p;
     obs_created_by := oi_created_by p; obs_created_at := now_iso df |}.

Definition store_action_plan (df : row_defaults) (p : action_plan_insert) : action_plan_row :=
  {| ap_id := new_id df; ap_observation_id := api_observation_id p;
     ap_action := api_action p; ap_due_date := api_due_date p;
     ap_responsible_person := api_responsible_person p;
     ap_follow_up_contact := api_follow_up_contact p;
     ap_status := api_status p; ap_supporting_image := None;
     ap_created_by := api_created_by p |}.

Definition set_fields (p : observation_fields) (r : observation_row) : observation_row :=
  {| obs_id := obs_id r; obs_fields := p;
     obs_corrective_action := obs_corrective_action r;
     obs_created_by := obs_created_by r; obs_created_at := obs_created_at r |}.

Definition set_plan_status (s : string) (r : action_plan_row) : action_plan_row :=
  {| ap_id := ap_id r; ap_observation_id := ap_observation_id r;
     ap_action := ap_action r; ap_due_date := ap_due_date r;
     ap_responsible_person := ap_responsible_person r;
     ap_follow_up_contact := ap_follow_up_contact r;
     ap_status := s; ap_supporting_image := ap_supporting_image r;
     ap_created_by := ap_created_by r |}.

(** [update(p).eq('id', id)] *)
Definition update_observation (id : string) (p : observation_fields) (d : database) : database :=
  with_observation_details
    (map (fun r => if bool_decide (obs_id r = id) then set_fields p r else r)
         (observation_details d)) d.

(** [update({status}).eq('observation_id', oid)] *)
Definition update_plans_status (oid s : string) (d : database) : database :=
  with_action_plans
    (map (fun r => if bool_decide (ap_observation_id r = oid) then set_plan_status s r else r)
         (action_plans d)) d.

(** [delete().eq('observation_id', oid)] on [observation_categories] *)
Definition delete_categories (oid : string) (d : database) : database :=
  with_observation_categories
    (filter (fun l => cl_observation_id l ≠ oid) (observation_categories d)) d.

(** [delete().eq('observation_id', oid)] on [action_plans] *)
Definition delete_action_plans (oid : string) (d : database) : database :=
  with_action_plans
    (filter (fun r => ap_observation_id r ≠ oid) (action_plans d)) d.

(** [delete().eq('id', id)] on [observation_details] *)
Definition delete_observation (id : string) (d : database) : database :=
  with_observation_details
    (filter (fun r => obs_id r ≠ id) (observation_details d)) d.

(** [select('*').eq('observation_id', oid)] on [action_plans] *)
Definition plans_of (oid : string) (d : database) : list action_plan_row :=
  filter (fun r => ap_observation_id r = oid) (action_plans d).

(** [select('category_id').eq('observation_id', oid)] on [observation_categories] *)
Definition categories_of (oid : string) (d : database) : list string :=
  cl_category_id <$> filter (fun l => cl_observation_id l = oid) (observation_categories d).

(** *** Answering the reports query *)

Record plan_summary := {
  ps_id : string;
  ps_action : string;
  ps_due_date : string;
  ps_responsible_person : string;
  ps_follow_up_contact : string;
  ps_status : string
}.

(** A row of the reply, with the embedded relations as the page reads them:
    [projects] and [companies] are indexed with [[0]], [action_plans] may be
    missing. *)
Record report_row := {
  rr_id : string;
  rr_subject : string;
  rr_submitter_name : string;
  rr_date : string;
  rr_description : string;
  rr_consequences : string;
  rr_status : string;
  rr_created_at : string;
  rr_projects : list string;
  rr_companies : list string;
  rr_action_plans : option (list plan_summary)
}.

Record reports_reply := { rows : list report_row; count : option Z }.

Definition column (c : string) (r : observation_row) : string :=
  if bool_decide (c = "id") then obs_id r
  else if bool_decide (c = "subject") then subject (obs_fields r)
  else if bool_decide (c = "submitter_name") then submitter_name (obs_fields r)
  else if bool_decide (c = "date") then date (obs_fields r)
  else if bool_decide (c = "description") then description (obs_fields r)
  else if bool_decide (c = "consequences") then consequences (obs_fields r)
  else if bool_decide (c = "status") then status (obs_fields r)
  else if bool_decide (c = "created_at") then obs_created_at r
  else "".

Definition holds (f : filter_op) (r : observation_row) : bool :=
  match f with
  | Gte c v => String.leb v (column c r)
  | Lte c v => String.leb (column c r) v
  | Eq c v => bool_decide (column c r = v)
  end.

Definition matching (fs : list filter_op) (d : database) : list observation_row :=
  filter (fun r => forallb (fun f => holds f r) fs = true) (observation_details d).

Fixpoint insert_sorted {A} (le : A -> A -> bool) (x : A) (l : list A) : list A :=
  match l with
  | [] => [x]
  | y :: l' => if le x y then x :: l else y :: insert_sorted le x l'
  end.

Definition ordered (key : string) (ascending : bool) (l : list observation_row)
  : list observation_row :=
  let le a b :=
    if ascending then String.leb (column key a) (column key b)
    else String.leb (column key b) (column key a) in
  foldr (insert_sorted le) [] l.

(** The filtered and sorted result set of a query. *)
Definition result_set (q : query) (d : database) : list observation_row :=
  ordered (q_order q) (q_ascending q) (matching (q_filters q) d).

(** Rows [from .. to], both included. *)
Definition window {A} (range : Z * Z) (l : list A) : list A :=
  let '(from, to) := range in
  take (Z.to_nat (to - from + 1)) (drop (Z.to_nat from) l).

Definition summary (r : action_plan_row) : plan_summary :=
  {| ps_id := ap_id r; ps_action := ap_action r; ps_due_date := ap_due_date r;
     ps_responsible_person := ap_responsible_person r;
     ps_follow_up_contact := ap_follow_up_contact r; ps_status := ap_status r |}.

Definition names_of (id : string) (t : list name_row) : list string :=
  nr_name <$> filter (fun n => nr_id n = id) t.

Definition expand (d : database) (r : observation_row) : report_row :=
  {| rr_id := obs_id r; rr_subject := subject (obs_fields r);
     rr_submitter_name := submitter_name (obs_fields r);
     rr_date := date (obs_fields r);
     rr_description := description (obs_fields r);
     rr_consequences := consequences (obs_fields r);
     rr_status := status (obs_fields r); rr_created_at := obs_created_at r;
     rr_projects := names_of (project_id (obs_fields r)) (projects d);
     rr_companies := names_of (company_id (obs_fields r)) (companies d);
     rr_action_plans := Some (summary <$> plans_of (obs_id r) d) |}.

(** The reply to a query: the requested window of the result set, and the
    total number of matching rows only if the query asked for a count. *)
Definition select_reports (q : query) (d : database) : reports_reply :=
  {| rows := expand d <$> window (q_range q) (result_set q d);
     count := match q_count q with
              | Some _ => Some (Z.of_nat (length (matching (q_filters q) d)))
              | None => None
              end |}.

End Backend.

(** ** Handlers: state, exceptions and backend calls *)

Module Run.
Import Backend.

Inductive outcome (A : Type) :=
  | Ok (a : A)
  | Threw (e : Js.exn).
Arguments Ok {A} a.
Arguments Threw {A} e.

(** A handler step over the component state [U] and the world. *)
Definition M (U A : Type) : Type := U * world -> outcome A * (U * world).

Definition ret {U A} (a : A) : M U A := fun s => (Ok a, s).

Definition bind {U A B} (m : M U A) (k : A -> M U B) : M U B :=
  fun s =>
    match m s with
    | (Ok a, s') => k a s'
    | (Threw e, s') => (Threw e, s')
    end.

Definition throw {U A} (e : Js.exn) : M U A := fun s => (Threw e, s).

(** [try { body } catch (err) { handler }] *)
Definition try_catch {U A} (body : M U A) (handler : Js.exn -> M U A) : M U A :=
  fun s =>
    match body s with
    | (Ok a, s') => (Ok a, s')
    | (Threw e, s') => handler e s'
    end.

(** [try { body } finally { fin }] *)
Definition finally {U A} (body : M U A) (fin : M U unit) : M U A :=
  fun s =>
    match body s with
    | (o, s') =>
        match fin s' with
        | (Ok _, s'') => (o, s'')
        | (Threw e, s'') => (Threw e, s'')
        end
    end.

(** A [setX(...)] call. *)
Definition set_state {U} (f : U -> U) : M U unit :=
  fun '(u, w) => (Ok tt, (f u, w)).

Definition emit {U} (e : ui_event) : M U unit :=
  fun '(u, w) => (Ok tt, (u, with_events (events w ++ [e]) w)).

(** [Date.now()] *)
Definition date_now {U} : M U Z := fun '(u, w) => (Ok (clock w), (u, w)).

(** [supabase.auth.getUser()], the [user] of its reply. *)
Definition getUser {U} : M U (option string) :=
  fun '(u, w) => (Ok (session_user w), (u, w)).

(** The [{ data, error }] a backend call resolves to. *)
Record response (A : Type) := Response { data : option A; error : option Js.exn }.
Arguments Response {A} data error.
Arguments data {A} r.
Arguments error {A} r.

(** One awaited backend call: the request is recorded; the oracle decides
    whether it fails, in which case the store is left as it was. *)
Definition rpc {U A} (r : request) (eff : nat -> world -> A * world) : M U (response A) :=
  fun '(u, w) =>
    let n := length (trace w) in
    let w1 := sent r w in
    match faults w n with
    | Some e => (Ok (Response None (Some e)), (u, w1))
    | None =>
        let '(a, w2) := eff n w1 in
        (Ok (Response (Some a) None), (u, w2))
    end.

Definition on_db (f : database -> database) (w : world) : world := with_db (f (db w)) w.

End Run.

Declare Scope handler_scope.
Delimit Scope handler_scope with handler.
Notation "'let*' x ':=' m 'in' k" :=
  (Run.bind m (fun x => k))
  (at level 10, x pattern, m at level 100, k at level 200, only parsing)
  : handler_scope.

Local Open Scope handler_scope.

(** The backend calls the pages make. *)
Module Api.
Import Backend Run.

(** [supabase.storage.from(bucket).upload(key, file)]; [data.path] is the key. *)
Definition upload {U} (bucket key : string) : M U (response string) :=
  rpc (Upload bucket key)
      (fun _ w => (key, with_bucket_objects (bucket_objects w ++ [(bucket, key)]) w)).

(** [from('observation_details').insert(p).select().single()] *)
Definition insert_observation {U} (p : observation_insert) : M U (response observation_row) :=
  rpc (InsertObservation p)
      (fun n w =>
         let row := store_observation (defaults w n 0%nat) p in
         (row, on_db (fun d => with_observation_details (observation_details d ++ [row]) d) w)).

(** [from('observation_categories').insert(rows)] *)
Definition insert_categories {U} (rows : list category_link) : M U (response unit) :=
  rpc (InsertCategories rows)
      (fun _ w =>
         (tt, on_db (fun d => with_observation_categories (observation_categories d ++ rows) d) w)).

(** [from('action_plans').insert(rows)]: one statement for all the rows. *)
Definition insert_action_plans {U} (rows : list action_plan_insert) : M U (response unit) :=
  rpc (InsertActionPlans rows)
      (fun n w =>
         let stored := imap (fun j p => store_action_plan (defaults w n j) p) rows in
         (tt, on_db (fun d => with_action_plans (action_plans d ++ stored) d) w)).

Definition update_observation {U} (id : string) (p : observation_fields) : M U (response unit) :=
  rpc (UpdateObservation id p)
      (fun _ w => (tt, on_db (Backend.update_observation id p) w)).

Definition update_plans_status {U} (oid st : string) : M U (response unit) :=
  rpc (UpdateActionPlansStatus oid st)
      (fun _ w => (tt, on_db (Backend.update_plans_status oid st) w)).

Definition delete_categories {U} (oid : string) : M U (response unit) :=
  rpc (DeleteCategories oid) (fun _ w => (tt, on_db (Backend.delete_categories oid) w)).

Definition delete_action_plans {U} (oid : string) : M U (response unit) :=
  rpc (DeleteActionPlans oid) (fun _ w => (tt, on_db (Backend.delete_action_plans oid) w)).

Definition delete_observation {U} (id : string) : M U (response unit) :=
  rpc (DeleteObservation id) (fun _ w => (tt, on_db (Backend.delete_observation id) w)).

(** The awaited query of the reports table. *)
Definition select_reports {U} (q : query) : M U (response reports_reply) :=
  rpc (SelectReports q) (fun _ w => (Backend.select_reports q (db w), w)).

(** [fetch(url)] followed by the conversion of the body to a data URL;
    [None] when the reply is not [ok]. *)
Definition fetch {U} (url : string) : M U (response (option string)) :=
  rpc (Fetch url) (fun _ w => (web w url, w)).

End Api.

(** ** The create page: [SafetyReport] *)

Module SafetyReport.
Import Backend Run.

(** A staged action plan.  [plan_status] is the [status] property. *)
Record ActionPlan := {
  action : string;
  dueDate : string;
  responsiblePerson : string;
  followUpContact : string;
  plan_status : string;
  supporting_image : option string
}.

(** The [useState] variables set only by the input widgets. *)
Record inputs := {
  actionPlanRequired : string;
  subject : string;
  project : string;
  company : string;
  submitterName : string;
  date : string;
  time : string;
  department : string;
  location : string;
  description : string;
  reportGroup : string;
  consequences : string;
  likelihood : string;
  status : string;
  imageFile : option Js.File;
  selectedCategories : list string
}.

Record state := {
  form : inputs;
  actionPlans : list ActionPlan;
  currentActionPlan : ActionPlan;
  loading : bool;
  error : option string;
  validationErrors : gmap string string
}.

Definition setActionPlans (l : list ActionPlan) (s : state) : state :=
  {| form := form s; actionPlans := l; currentActionPlan := currentActionPlan s;
     loading := loading s; error := error s; validationErrors := validationErrors s |}.

Definition setCurrentActionPlan (p : ActionPlan) (s : state) : state :=
  {| form := form s; actionPlans := actionPlans s; currentActionPlan := p;
     loading := loading s; error := error s; validationErrors := validationErrors s |}.

Definition setLoading (b : bool) (s : state) : state :=
  {| form := form s; actionPlans := actionPlans s; currentActionPlan := currentActionPlan s;
     loading := b; error := error s; validationErrors := validationErrors s |}.

Definition setError (e : option string) (s : state) : state :=
  {| form := form s; actionPlans := actionPlans s; currentActionPlan := currentActionPlan s;
     loading := loading s; error := e; validationErrors := validationErrors s |}.

Definition setValidationErrors (v : gmap string string) (s : state) : state :=
  {| form := form s; actionPlans := actionPlans s; currentActionPlan := currentActionPlan s;
     loading := loading s; error := error s; validationErrors := v |}.

(** [if (!ok) errors[key] = msg] *)
Definition require (ok : bool) (key msg : string) (errors : gmap string string) : gmap string string :=
  if ok then errors else <[key := msg]> errors.

(** The [errors] object [validateForm] builds. *)
Definition validateForm_errors (s : state) : gmap string string :=
  let f := form s in
  let errors : gmap string string := ∅ in
  let errors := require (Js.truthy (project f)) "project" "Project is required" errors in
  let errors := require (Js.truthy (company f)) "company" "Company is required" errors in
  let errors := require (Js.truthy (submitterName f)) "submitterName" "Submitter name is required" errors in
  let errors := require (Js.truthy (date f)) "date" "Date is required" errors in
  let errors := require (Js.truthy (time f)) "time" "Time is required" errors in
  let errors := require (Js.truthy (location f)) "location" "Location is required" errors in
  let errors := require (Js.truthy (description f)) "description" "Description is required" errors in
  let errors := require (Js.truthy (reportGroup f)) "reportGroup" "Report group is required" errors in
  let errors := require (Js.truthy (consequences f)) "consequences" "Consequences is required" errors in
  let errors := require (Js.truthy (likelihood f)) "likelihood" "Likelihood is required" errors in
  let errors := require (Js.truthy (subject f)) "subject" "Subject is required" errors in
  let errors := require (negb (bool_decide (length (selectedCategories f) = 0%nat)))
                        "categories" "At least one safety category is required" errors in
  let errors := require (negb (bool_decide (actionPlanRequired f = "yes")
                               && bool_decide (length (actionPlans s) = 0%nat)))
                        "actionPlans" "At least one action plan is required" errors in
  errors.

Definition validateForm (s : state) : M state bool :=
  let errors := validateForm_errors s in
  let* _ := set_state (setValidationErrors errors) in
  ret (bool_decide (size errors = 0%nat)).

Definition empty_plan : ActionPlan :=
  {| action := ""; dueDate := ""; responsiblePerson := ""; followUpContact := "";
     plan_status := "open"; supporting_image := None |}.

Definition handleSaveActionPlan (addAnother : bool) (s : state) : M state unit :=
  let p := currentActionPlan s in
  if negb (Js.truthy (action p)) || negb (Js.truthy (dueDate p))
     || negb (Js.truthy (responsiblePerson p)) || negb (Js.truthy (followUpContact p))
  then emit (ToastError "Please fill in all action plan fields")
  else
    let* _ := set_state (setActionPlans (actionPlans s ++ [p])) in
    let* _ := emit (ToastSuccess "Action plan saved") in
    if addAnother then set_state (setCurrentActionPlan empty_plan) else ret tt.

Definition observation_payload (s : state) (imagePath user_id : string) : observation_insert :=
  let f := form s in
  {| oi_fields :=
       {| project_id := project f; company_id := company f;
          submitter_name := submitterName f; Backend.date := date f;
          Backend.time := time f; Backend.department := department f;
          Backend.location := location f; Backend.description := description f;
          report_group := reportGroup f; Backend.consequences := consequences f;
          Backend.likelihood := likelihood f; Backend.status := status f;
          Backend.subject := subject f;
          Backend.supporting_image := if Js.truthy imagePath then Some imagePath else None |};
     oi_corrective_action := bool_decide (0 < length (actionPlans s))%nat;
     oi_created_by := user_id |}.

Definition category_rows (observation_id : string) (cats : list string) : list category_link :=
  map (fun categoryId => {| cl_observation_id := observation_id; cl_category_id := categoryId |}) cats.

Definition action_plan_rows (observation_id user_id : string) (plans : list ActionPlan)
  : list action_plan_insert :=
  map (fun plan =>
         {| api_observation_id := observation_id; api_action := action plan;
            api_due_date := dueDate plan;
            api_responsible_person := responsiblePerson plan;
            api_follow_up_contact := followUpContact plan;
            api_status := plan_status plan; api_created_by := user_id |})
      plans.

(** Body of the [try] block of [handleSubmit]. *)
Definition submit_body (s : state) : M state unit :=
  let f := form s in
  let* user := getUser in
  match user with
  | None => throw (Js.Error "User not authenticated")
  | Some user_id =>
      let* imagePath :=
        match imageFile f with
        | Some file =>
            let* now := date_now in
            let* r := Api.upload "safety-images" (pretty now +:+ "-" +:+ Js.file_name file) in
            match Run.error r, data r with
            | Some imageError, _ => throw imageError
            | None, Some path => ret path
            | None, None => throw (Js.Error "imageData is null")
            end
        | None => ret ""
        end in
      let* r := Api.insert_observation (observation_payload s imagePath user_id) in
      match Run.error r, data r with
      | Some observationError, _ => throw (Js.Error "Failed to save observation")
      | None, None => throw (Js.Error "No report data returned after save")
      | None, Some savedReport =>
          let* _ :=
            if bool_decide (0 < length (selectedCategories f))%nat then
              let* r := Api.insert_categories
                          (category_rows (obs_id savedReport) (selectedCategories f)) in
              match Run.error r with
              | Some categoriesError => throw (Js.Error "Failed to save categories")
              | None => ret tt
              end
            else ret tt in
          let* _ :=
            if bool_decide (0 < length (actionPlans s))%nat then
              let* r := Api.insert_action_plans
                          (action_plan_rows (obs_id savedReport) user_id (actionPlans s)) in
              match Run.error r with
              | Some actionPlansError => throw (Js.Error "Failed to save action plans")
              | None => ret tt
              end
            else ret tt in
          let* _ := emit (ToastSuccess "Safety report saved successfully!") in
          emit (Navigate ("/reports/" +:+ obs_id savedReport))
      end
  end.

Definition handleSubmit (s : state) : M state unit :=
  let* valid := validateForm s in
  if negb valid then emit (ToastError "Please fill in all required fields")
  else
    let* _ := set_state (setLoading true) in
    let* _ := set_state (setError None) in
    finally
      (try_catch (submit_body s)
         (fun err =>
            let errorMessage :=
              if Js.instanceof_Error err then Js.message err else "Failed to save report" in
            let* _ := set_state (setError (Some errorMessage)) in
            emit (ToastError errorMessage)))
      (set_state (setLoading false)).

End SafetyReport.

(** ** The edit page: [ReportView] *)

Module ReportView.
Import Backend Run.

(** An action plan of the page.  [plan_id] and [plan_status] are the [id] and
    [status] properties. *)
Record ActionPlan := {
  plan_id : option string;
  action : string;
  due_date : string;
  responsible_person : string;
  follow_up_contact : string;
  plan_status : string;
  supporting_image : string
}.

Record inputs := {
  project : string;
  company : string;
  submitterName : string;
  date : string;
  time : string;
  department : string;
  location : string;
  description : string;
  reportGroup : string;
  consequences : string;
  likelihood : string;
  status : string;
  subject : string;
  imageFile : option Js.File;
  selectedCategories : list string
}.

(** [id] comes from the route; [report_image] is [report?.supporting_image]. *)
Record state := {
  id : option string;
  report_image : option string;
  form : inputs;
  actionPlans : list ActionPlan;
  saving : bool
}.

Definition setActionPlans (f : list ActionPlan -> list ActionPlan) (s : state) : state :=
  {| id := id s; report_image := report_image s; form := form s;
     actionPlans := f (actionPlans s); saving := saving s |}.

Definition setSaving (b : bool) (s : state) : state :=
  {| id := id s; report_image := report_image s; form := form s;
     actionPlans := actionPlans s; saving := b |}.

Definition setSelectedCategories (f : list string -> list string) (s : state) : state :=
  let i := form s in
  {| id := id s; report_image := report_image s;
     form := {| project := project i; company := company i;
                submitterName := submitterName i; date := date i; time := time i;
                department := department i; location := location i;
                description := description i; reportGroup := reportGroup i;
                consequences := consequences i; likelihood := likelihood i;
                status := status i; subject := subject i;
                imageFile := imageFile i;
                selectedCategories := f (selectedCategories i) |};
     actionPlans := actionPlans s; saving := saving s |}.

Definition handleCategorySelect (categoryId : string) : M state unit :=
  set_state (setSelectedCategories (fun prev =>
    if bool_decide (categoryId ∈ prev)
    then filter (fun id => id ≠ categoryId) prev
    else prev ++ [categoryId])).

Definition newActionPlan (now : Z) : ActionPlan :=
  {| plan_id := Some ("temp-" +:+ pretty now); action := ""; due_date := "";
     responsible_person := ""; follow_up_contact := ""; plan_status := "open";
     supporting_image := "" |}.

Definition handleAddActionPlan (s : state) : M state unit :=
  if bool_decide (10 <= length (actionPlans s))%nat
  then emit (ToastError "Maximum of 10 action plans allowed per report")
  else
    let* now := date_now in
    set_state (setActionPlans (fun _ => actionPlans s ++ [newActionPlan now])).

Definition close_plan (plan : ActionPlan) : ActionPlan :=
  {| plan_id := plan_id plan; action := action plan; due_date := due_date plan;
     responsible_person := responsible_person plan;
     follow_up_contact := follow_up_contact plan; plan_status := "closed";
     supporting_image := supporting_image plan |}.

Definition update_payload (f : inputs) (imagePath : string) : observation_fields :=
  {| project_id := project f; company_id := company f;
     submitter_name := submitterName f; Backend.date := date f;
     Backend.time := time f; Backend.department := department f;
     Backend.location := location f; Backend.description := description f;
     report_group := reportGroup f; Backend.consequences := consequences f;
     Backend.likelihood := likelihood f; Backend.status := status f;
     Backend.subject := subject f;
     Backend.supporting_image := Some imagePath |}.

Definition category_rows (observation_id : string) (cats : list string) : list category_link :=
  map (fun categoryId => {| cl_observation_id := observation_id; cl_category_id := categoryId |}) cats.

Definition required_filled (f : inputs) : bool :=
  Js.truthy (project f) && Js.truthy (company f) && Js.truthy (submitterName f)
  && Js.truthy (date f) && Js.truthy (time f) && Js.truthy (location f)
  && Js.truthy (description f) && Js.truthy (reportGroup f)
  && Js.truthy (consequences f) && Js.truthy (likelihood f)
  && Js.truthy (subject f).

(** The checks of [handleSubmit] before it writes: the message of the first
    one that fails and makes the handler return. *)
Definition rejected (f : inputs) : option string :=
  if negb (required_filled f)
  then Some "Please fill in all required fields"
  else if negb (bool_decide
         (subject f ∈ ["SOSV : Safety Observation Site Visit"; "SOP"; "RES"]))
  then Some "Invalid subject value"
  else if negb (bool_decide (reportGroup f ∈ ["finding"; "positive"]))
  then Some "Invalid report group value"
  else if negb (bool_decide
         (consequences f ∈ ["minor"; "moderate"; "major"; "severe"]))
  then Some "Invalid consequences value"
  else if negb (bool_decide
         (likelihood f ∈ ["unlikely"; "possible"; "likely"; "very-likely"]))
  then Some "Invalid likelihood value"
  else None.

Section Handlers.

(** [sanitizeFilename] normalises Unicode before it replaces unsafe
    characters; on byte strings it is taken as given. *)
Variable sanitizeFilename : string -> string.

(** The writes of [handleSubmit], after the checks. *)
Definition write_back (id : string) (s : state) : M state unit :=
  let f := form s in
  let* imagePath :=
    match imageFile f with
    | Some file =>
        let* now := date_now in
        let fileName := pretty now +:+ "-" +:+ sanitizeFilename (Js.file_name file) in
        let* r := Api.upload "safety-images" fileName in
        match Run.error r, data r with
        | Some imageError, _ => throw imageError
        | None, Some path => ret path
        | None, None => throw (Js.Error "imageData is null")
        end
    | None => ret (default "" (report_image s))
    end in
  let* r := Api.update_observation id (update_payload f imagePath) in
  match Run.error r with
  | Some updateError => throw updateError
  | None =>
      let* _ :=
        if bool_decide (status f = "closed") then
          let* r := Api.update_plans_status id "closed" in
          match Run.error r with
          | Some actionPlansError => throw actionPlansError
          | None => set_state (setActionPlans (map close_plan))
          end
        else ret tt in
      let* _ :=
        if bool_decide (0 < length (selectedCategories f))%nat then
          let* r := Api.delete_categories id in
          match Run.error r with
          | Some deleteError => throw deleteError
          | None =>
              let* r := Api.insert_categories (category_rows id (selectedCategories f)) in
              match Run.error r with
              | Some categoriesError => throw categoriesError
              | None => ret tt
              end
          end
        else ret tt in
      let* _ := emit (ToastSuccess "Report updated successfully") in
      emit (Navigate "/")
  end.

Definition handleSubmit (s : state) : M state unit :=
  let f := form s in
  match id s with
  | None => ret tt
  | Some id =>
      if negb (Js.truthy id) then ret tt
      else
        finally
          (try_catch
             (let* _ := set_state (setSaving true) in
              let* user := getUser in
              match user with
              | None => throw (Js.Error "User not authenticated")
              | Some _ =>
                  match rejected f with
                  | Some msg => emit (ToastError msg)
                  | None => write_back id s
                  end
              end)
             (fun err => emit (ToastError "Failed to update report")))
          (set_state (setSaving false))
  end.

End Handlers.

End ReportView.

(** ** The reports table: [SafetyReportsTable] *)

Module SafetyReportsTable.
Import Backend Run.

Record SafetyReport := {
  id : string;
  subject : string;
  submitter_name : string;
  date : string;
  description : string;
  consequences : string;
  status : string;
  created_at : string;
  projects_name : string;
  companies_name : string;
  action_plans : list plan_summary
}.

Record FilterOptions := {
  dateRange_start : string;
  dateRange_end : string;
  filter_status : string;
  severity : string
}.

Record SortConfig := { key : string; direction : string }.

Record state := {
  reports : list SafetyReport;
  loading : bool;
  error : string;
  currentPage : Z;
  totalPages : Z;
  reportToDelete : option SafetyReport;
  filters : FilterOptions;
  sortConfig : SortConfig
}.

Definition setReports (l : list SafetyReport) (s : state) : state :=
  {| reports := l; loading := loading s; error := error s;
     currentPage := currentPage s; totalPages := totalPages s;
     reportToDelete := reportToDelete s; filters := filters s;
     sortConfig := sortConfig s |}.

Definition setLoading (b : bool) (s : state) : state :=
  {| reports := reports s; loading := b; error := error s;
     currentPage := currentPage s; totalPages := totalPages s;
     reportToDelete := reportToDelete s; filters := filters s;
     sortConfig := sortConfig s |}.

Definition setError (e : string) (s : state) : state :=
  {| reports := reports s; loading := loading s; error := e;
     currentPage := currentPage s; totalPages := totalPages s;
     reportToDelete := reportToDelete s; filters := filters s;
     sortConfig := sortConfig s |}.

Definition setTotalPages (n : Z) (s : state) : state :=
  {| reports := reports s; loading := loading s; error := error s;
     currentPage := currentPage s; totalPages := n;
     reportToDelete := reportToDelete s; filters := filters s;
     sortConfig := sortConfig s |}.

Definition setReportToDelete (r : option SafetyReport) (s : state) : state :=
  {| reports := reports s; loading := loading s; error := error s;
     currentPage := currentPage s; totalPages := totalPages s;
     reportToDelete := r; filters := filters s; sortConfig := sortConfig s |}.

Definition setSortConfig (c : SortConfig) (s : state) : state :=
  {| reports := reports s; loading := loading s; error := error s;
     currentPage := currentPage s; totalPages := totalPages s;
     reportToDelete := reportToDelete s; filters := filters s; sortConfig := c |}.

Definition reportsPerPage : Z := 10.

(** The filters [loadReports] chains onto the query, in its order. *)
Definition applied_filters (f : FilterOptions) : list filter_op :=
  (if Js.truthy (dateRange_start f) then [Gte "date" (dateRange_start f)] else [])
  ++ (if Js.truthy (dateRange_end f) then [Lte "date" (dateRange_end f)] else [])
  ++ (if Js.truthy (filter_status f) then [Eq "status" (filter_status f)] else [])
  ++ (if Js.truthy (severity f) then [Eq "consequences" (severity f)] else []).

(** The query [loadReports] builds.  [select] is called with the column list
    only, so no count is asked for. *)
Definition build_query (s : state) : query :=
  let start := (currentPage s - 1) * reportsPerPage in
  let end_ := start + reportsPerPage - 1 in
  {| q_order := key (sortConfig s);
     q_ascending := bool_decide (direction (sortConfig s) = "asc");
     q_filters := applied_filters (filters s);
     q_range := (start, end_);
     q_count := None |}.

Definition transform (report : report_row) : SafetyReport :=
  {| id := rr_id report; subject := rr_subject report;
     submitter_name := rr_submitter_name report; date := rr_date report;
     description := rr_description report;
     consequences := rr_consequences report; status := rr_status report;
     created_at := rr_created_at report;
     projects_name := default "" (head (rr_projects report));
     companies_name := default "" (head (rr_companies report));
     action_plans := default [] (rr_action_plans report) |}.

Definition loadReports (s : state) : M state unit :=
  finally
    (try_catch
       (let* _ := set_state (setLoading true) in
        let* r := Api.select_reports (build_query s) in
        match Run.error r with
        | Some fetchError => throw fetchError
        | None =>
            let rows := rows <$> data r in
            let count := data r ≫= count in
            let transformedData := transform <$> default [] rows in
            let* _ := set_state (setReports transformedData) in
            set_state (setTotalPages (Js.ceil_div (Js.or_zero count) reportsPerPage))
        end)
       (fun err => set_state (setError "Failed to load reports")))
    (set_state (setLoading false)).

Definition handleSort (k : string) (s : state) : M state unit :=
  set_state (setSortConfig
    {| key := k;
       direction := if bool_decide (key (sortConfig s) = k)
                       && bool_decide (direction (sortConfig s) = "asc")
                    then "desc" else "asc" |}).

Definition handleDelete (report : SafetyReport) : M state unit :=
  set_state (setReportToDelete (Some report)).

Definition confirmDelete (s : state) : M state unit :=
  match reportToDelete s with
  | None => ret tt
  | Some report =>
      try_catch
        (let* r := Api.delete_action_plans (id report) in
         match Run.error r with
         | Some actionPlansError => throw actionPlansError
         | None =>
             let* r := Api.delete_observation (id report) in
             match Run.error r with
             | Some deleteError => throw deleteError
             | None =>
                 let* _ := emit (ToastSuccess "Report deleted successfully") in
                 let* _ := set_state (setReportToDelete None) in
                 loadReports s
             end
         end)
        (fun err => emit (ToastError "Failed to delete report"))
  end.

Section Spreadsheet.

(** [format(parseISO(s), 'PPP')]: [None] when the date is invalid and
    [format] throws.  [today] is [format(new Date(), 'yyyy-MM-dd')]. *)
Variable format_PPP : string -> option string.
Variable today : Z -> string.

(** One object of [exportData]: the column labels in insertion order. *)
Definition export_row (report : SafetyReport) : option (list (string * string)) :=
  d ← format_PPP (date report);
  c ← format_PPP (created_at report);
  Some [("Report ID", id report);
        ("Subject", subject report);
        ("Submitter", submitter_name report);
        ("Date", d);
        ("Project", projects_name report);
        ("Company", companies_name report);
        ("Description", description report);
        ("Severity", consequences report);
        ("Status", status report);
        ("Created At", c)].

Definition exportToCSV (s : state) : M state unit :=
  match mapM export_row (reports s) with
  | None => throw (Js.Error "Invalid time value")
  | Some exportData =>
      let* now := date_now in
      emit (WriteFile ("safety-reports-" +:+ today now +:+ ".csv") exportData)
  end.

End Spreadsheet.

(** The value of a column in an exported row. *)
Definition cell (label : string) (row : list (string * string)) : option string :=
  snd <$> find (fun kv => bool_decide (fst kv = label)) row.

End SafetyReportsTable.

(** ** The PDF renderer's image cache: [SafetyReportPDF] *)

Module SafetyReportPDF.
Import Backend Run.

Record cached := { url : string; timestamp : Z }.

Definition CACHE_TTL : Z := 5 * 60 * 1000.

(** The module-level [imageCache]. *)
Record state := { imageCache : gmap string cached }.

Definition cache_set (k : string) (v : cached) (s : state) : state :=
  {| imageCache := <[k := v]> (imageCache s) |}.

Definition get_cache : M state (gmap string cached) :=
  fun '(u, w) => (Ok (imageCache u), (u, w)).

(** The cached value, when there is one younger than [CACHE_TTL]. *)
Definition cache_hit (cache : gmap string cached) (now : Z) (src : string) : option string :=
  match cache !! src with
  | Some cachedImage =>
      if bool_decide (now - timestamp cachedImage < CACHE_TTL)
      then Some (url cachedImage) else None
  | None => None
  end.

Section Renderer.

(** [import.meta.env.VITE_SUPABASE_URL] *)
Variable VITE_SUPABASE_URL : string.

(** The address [loadImage] fetches for a source that is not a data URL. *)
Definition resolve (src : string) (isActionPlan : bool) : string :=
  if Js.startsWith src "http" then src
  else
    let bucket := if isActionPlan then "action-plan-images" else "safety-images" in
    VITE_SUPABASE_URL +:+ "/storage/v1/object/public/" +:+ bucket +:+ "/" +:+ src.

Definition loadImage (src : string) (isActionPlan : bool) : M state (option string) :=
  try_catch
    (let* cache := get_cache in
     let* now := date_now in
     match cache_hit cache now src with
     | Some cachedUrl => ret (Some cachedUrl)
     | None =>
         if Js.startsWith src "data:image" then ret (Some src)
         else
           let* r := Api.fetch (resolve src isActionPlan) in
           match Run.error r, data r with
           | Some networkError, _ => throw networkError
           | None, Some (Some base64) =>
               let* stored_at := date_now in
               let* _ := set_state (cache_set src {| url := base64; timestamp := stored_at |}) in
               ret (Some base64)
           | None, _ => throw (Js.Error "Failed to load image")
           end
     end)
    (fun err => ret None).

End Renderer.

End SafetyReportPDF.

(** ** Concrete stores, worlds and drafts *)

Module Examples.
Import Backend.

Definition no_faults : nat -> option Js.exn := fun _ => None.

(** The [k]-th request fails, the others succeed. *)
Definition fail_at (k : nat) : nat -> option Js.exn :=
  fun n => if bool_decide (n = k) then Some (Js.Exn false "backend error") else None.

Definition ids : nat -> nat -> row_defaults :=
  fun n j => {| new_id := "row-" +:+ pretty n +:+ "-" +:+ pretty j;
                now_iso := "2024-05-01T08:00:00Z" |}.

Definition empty_db : database :=
  {| projects := [ {| nr_id := "p1"; nr_name := "Plant A" |} ];
     companies := [ {| nr_id := "c1"; nr_name := "Acme" |} ];
     observation_details := []; action_plans := [];
     observation_categories := [] |}.

Definition world_of (d : database) (f : nat -> option Js.exn) : world :=
  {| db := d; bucket_objects := []; web := fun _ => None;
     session_user := Some "u1"; clock := 1714550400000;
     latency := fun _ => 120; trace := []; faults := f; defaults := ids;
     events := [] |}.

Definition fields (id st sev : string) : observation_fields :=
  {| project_id := "p1"; company_id := "c1"; submitter_name := "Dana";
     date := "2024-05-01"; time := "08:00"; department := "Ops";
     location := "Dock 3"; description := "Spill near " +:+ id;
     report_group := "finding"; consequences := sev; likelihood := "possible";
     status := st; subject := "SOP"; supporting_image := None |}.

Definition observation (id st sev : string) : observation_row :=
  {| obs_id := id; obs_fields := fields id st sev;
     obs_corrective_action := true; obs_created_by := "u1";
     obs_created_at := "2024-05-01T08:00:00Z" |}.

Definition plan (id oid st : string) : action_plan_row :=
  {| ap_id := id; ap_observation_id := oid; ap_action := "Clean up";
     ap_due_date := "2024-06-01"; ap_responsible_person := "Lee";
     ap_follow_up_contact := "Kim"; ap_status := st;
     ap_supporting_image := None; ap_created_by := "u1" |}.

(** Two observations; [o1] has two open plans and two category links. *)
Definition small_db : database :=
  {| projects := projects empty_db; companies := companies empty_db;
     observation_details := [observation "o1" "open" "minor"; observation "o2" "open" "major"];
     action_plans := [plan "a1" "o1" "open"; plan "a2" "o2" "open"; plan "a3" "o1" "open"];
     observation_categories :=
       [ {| cl_observation_id := "o1"; cl_category_id := "k1" |};
         {| cl_observation_id := "o2"; cl_category_id := "k1" |};
         {| cl_observation_id := "o1"; cl_category_id := "k2" |} ] |}.

(** Eleven observations [r0 .. r10]. *)
Definition eleven_db : database :=
  {| projects := projects empty_db; companies := companies empty_db;
     observation_details :=
       (fun n : nat => observation ("r" +:+ pretty n) "open" "minor") <$> seq 0 11;
     action_plans := []; observation_categories := [] |}.

(** *** Drafts of the create page *)

Definition staged (a : string) : SafetyReport.ActionPlan :=
  {| SafetyReport.action := a; SafetyReport.dueDate := "2024-06-01";
     SafetyReport.responsiblePerson := "Lee"; SafetyReport.followUpContact := "Kim";
     SafetyReport.plan_status := "open"; SafetyReport.supporting_image := None |}.

Definition filled (cats : list string) : SafetyReport.inputs :=
  {| SafetyReport.actionPlanRequired := "no"; SafetyReport.subject := "SOP";
     SafetyReport.project := "p1"; SafetyReport.company := "c1";
     SafetyReport.submitterName := "Dana"; SafetyReport.date := "2024-05-01";
     SafetyReport.time := "08:00"; SafetyReport.department := "Ops";
     SafetyReport.location := "Dock 3"; SafetyReport.description := "Spill";
     SafetyReport.reportGroup := "finding"; SafetyReport.consequences := "minor";
     SafetyReport.likelihood := "possible"; SafetyReport.status := "open";
     SafetyReport.imageFile := None; SafetyReport.selectedCategories := cats |}.

Definition draft (cats : list string) (plans : list SafetyReport.ActionPlan)
  : SafetyReport.state :=
  {| SafetyReport.form := filled cats; SafetyReport.actionPlans := plans;
     SafetyReport.currentActionPlan := SafetyReport.empty_plan;
     SafetyReport.loading := false; SafetyReport.error := None;
     SafetyReport.validationErrors := ∅ |}.

(** *** States of the edit page *)

Definition edit_inputs (st : string) (cats : list string) : ReportView.inputs :=
  {| ReportView.project := "p1"; ReportView.company := "c1";
     ReportView.submitterName := "Dana"; ReportView.date := "2024-05-01";
     ReportView.time := "08:00"; ReportView.department := "Ops";
     ReportView.location := "Dock 3"; ReportView.description := "Spill";
     ReportView.reportGroup := "finding"; ReportView.consequences := "minor";
     ReportView.likelihood := "possible"; ReportView.status := st;
     ReportView.subject := "SOP"; ReportView.imageFile := None;
     ReportView.selectedCategories := cats |}.

Definition local_plan (pid st : string) : ReportView.ActionPlan :=
  {| ReportView.plan_id := Some pid; ReportView.action := "Clean up";
     ReportView.due_date := "2024-06-01"; ReportView.responsible_person := "Lee";
     ReportView.follow_up_contact := "Kim"; ReportView.plan_status := st;
     ReportView.supporting_image := "" |}.

Definition editing (oid st : string) (cats : list string)
    (plans : list ReportView.ActionPlan) : ReportView.state :=
  {| ReportView.id := Some oid; ReportView.report_image := None;
     ReportView.form := edit_inputs st cats; ReportView.actionPlans := plans;
     ReportView.saving := false |}.

(** A stand-in for [sanitizeFilename] on names that are already safe. *)
Definition keep_name (name : string) : string := name.

(** *** States of the reports table *)

Definition table (page : Z) (loaded : list SafetyReportsTable.SafetyReport)
    (target : option SafetyReportsTable.SafetyReport) : SafetyReportsTable.state :=
  {| SafetyReportsTable.reports := loaded; SafetyReportsTable.loading := false;
     SafetyReportsTable.error := ""; SafetyReportsTable.currentPage := page;
     SafetyReportsTable.totalPages := 1;
     SafetyReportsTable.reportToDelete := target;
     SafetyReportsTable.filters :=
       {| SafetyReportsTable.dateRange_start := "";
          SafetyReportsTable.dateRange_end := "";
          SafetyReportsTable.filter_status := "";
          SafetyReportsTable.severity := "" |};
     SafetyReportsTable.sortConfig :=
       {| SafetyReportsTable.key := "created_at";
          SafetyReportsTable.direction := "desc" |} |}.

(** The row of the table for a stored observation. *)
Definition listed (d : database) (r : observation_row) : SafetyReportsTable.SafetyReport :=
  SafetyReportsTable.transform (expand d r).

(** A stand-in for the date formatter: it rejects the empty string only. *)
Definition show_date (iso : string) : option string :=
  if Js.truthy iso then Some iso else None.

Definition show_day (now : Z) : string := pretty now.

(** *** Worlds for the PDF renderer *)

Definition base_url : string := "https://proj.example.co".

Definition png : string := "data:image/png;base64,iVBORw0KGgo=".

(** Every address answers with the same picture; a request takes 120 ms. *)
Definition online (now : Z) : world :=
  {| db := empty_db; bucket_objects := []; web := fun _ => Some png;
     session_user := Some "u1"; clock := now; latency := fun _ => 120;
     trace := []; faults := no_faults; defaults := ids; events := [] |}.

(** The renderer after one load of "pic.png" started at time 1000: the entry
    is stamped 1120. *)
Definition warmed : SafetyReportPDF.state :=
  (SafetyReportPDF.loadImage base_url "pic.png" false
     ({| SafetyReportPDF.imageCache := ∅ |}, online 1000)).2.1.

End Examples.

(** ** Vocabulary of the statements *)

Module Claims.
Import Backend Run.

(** The requests a handler run adds to the trace of the world it starts in. *)
Definition requests_of {U A} (m : M U A) (u : U) (w : world) : list request :=
  drop (length (trace w)) (trace (m (u, w)).2.2).

(** The world a handler run ends in. *)
Definition world_after {U A} (m : M U A) (u : U) (w : world) : world := (m (u, w)).2.2.

(** The component state a handler run ends in. *)
Definition state_after {U A} (m : M U A) (u : U) (w : world) : U := (m (u, w)).2.1.

(** A write of rows that reference an observation. *)
Definition dependent_write (r : request) : bool :=
  match r with
  | InsertCategories _ | InsertActionPlans _ => true
  | _ => false
  end.

Definition references (oid : string) (r : request) : Prop :=
  match r with
  | InsertCategories rows => Forall (fun l => cl_observation_id l = oid) rows
  | InsertActionPlans rows => Forall (fun p => api_observation_id p = oid) rows
  | _ => True
  end.

Definition plan_write (r : request) : bool :=
  match r with
  | InsertActionPlans _ => true
  | _ => false
  end.

Definition plan_writes (t : list request) : nat :=
  length (List.filter plan_write t).

(** Some, but not all, of the staged plans of [s] end up stored. *)
Definition partial_success (s : SafetyReport.state) (w : world) : Prop :=
  let w' := world_after (SafetyReport.handleSubmit s) s w in
  let stored := (length (action_plans (db w')) - length (action_plans (db w)))%nat in
  (0 < stored < length (SafetyReport.actionPlans s))%nat.

(** A draft that misses a required entry. *)
Definition incomplete (s : SafetyReport.state) : Prop :=
  let f := SafetyReport.form s in
  SafetyReport.project f = "" ∨ SafetyReport.company f = ""
  ∨ SafetyReport.submitterName f = "" ∨ SafetyReport.date f = ""
  ∨ SafetyReport.time f = "" ∨ SafetyReport.location f = ""
  ∨ SafetyReport.description f = "" ∨ SafetyReport.reportGroup f = ""
  ∨ SafetyReport.consequences f = "" ∨ SafetyReport.likelihood f = ""
  ∨ SafetyReport.subject f = ""
  ∨ SafetyReport.selectedCategories f = []
  ∨ (SafetyReport.actionPlanRequired f = "yes" ∧ SafetyReport.actionPlans s = []).

(** The edit page's [handleSubmit] ran to its end: it showed the success
    toast and left the page. *)
Definition update_succeeded (sanitize : string -> string) (s : ReportView.state) (w : world) : Prop :=
  events (world_after (ReportView.handleSubmit sanitize s) s w)
  = events w ++ [ToastSuccess "Report updated successfully"; Navigate "/"].

(** The states of the image cache: empty when the module is loaded, changed
    by [loadImage] only. *)
Inductive reachable (base : string) : SafetyReportPDF.state → Prop :=
  | reach_start : reachable base {| SafetyReportPDF.imageCache := ∅ |}
  | reach_load u w src isActionPlan :
      reachable base u →
      reachable base (state_after (SafetyReportPDF.loadImage base src isActionPlan) u w).

(** No key of the cache is a data URL. *)
Definition no_data_keys (c : gmap string SafetyReportPDF.cached) : Prop :=
  ∀ k e, c !! k = Some e → Js.startsWith k "data:image" = false.

End Claims.

(** ** More of the pages *)

(** *** The create page: category buttons *)

Module SafetyReportWidgets.
Import Backend Run.

Definition setSelectedCategories (g : list string -> list string) (s : SafetyReport.state)
  : SafetyReport.state :=
  let f := SafetyReport.form s in
  {| SafetyReport.form :=
       {| SafetyReport.actionPlanRequired := SafetyReport.actionPlanRequired f;
          SafetyReport.subject := SafetyReport.subject f;
          SafetyReport.project := SafetyReport.project f;
          SafetyReport.company := SafetyReport.company f;
          SafetyReport.submitterName := SafetyReport.submitterName f;
          SafetyReport.date := SafetyReport.date f;
          SafetyReport.time := SafetyReport.time f;
          SafetyReport.department := SafetyReport.department f;
          SafetyReport.location := SafetyReport.location f;
          SafetyReport.description := SafetyReport.description f;
          SafetyReport.reportGroup := SafetyReport.reportGroup f;
          SafetyReport.consequences := SafetyReport.consequences f;
          SafetyReport.likelihood := SafetyReport.likelihood f;
          SafetyReport.status := SafetyReport.status f;
          SafetyReport.imageFile := SafetyReport.imageFile f;
          SafetyReport.selectedCategories := g (SafetyReport.selectedCategories f) |};
     SafetyReport.actionPlans := SafetyReport.actionPlans s;
     SafetyReport.currentActionPlan := SafetyReport.currentActionPlan s;
     SafetyReport.loading := SafetyReport.loading s;
     SafetyReport.error := SafetyReport.error s;
     SafetyReport.validationErrors := SafetyReport.validationErrors s |}.

Definition setActionPlanRequired (v : string) (s : SafetyReport.state) : SafetyReport.state :=
  let f := SafetyReport.form s in
  {| SafetyReport.form :=
       {| SafetyReport.actionPlanRequired := v;
          SafetyReport.subject := SafetyReport.subject f;
          SafetyReport.project := SafetyReport.project f;
          SafetyReport.company := SafetyReport.company f;
          SafetyReport.submitterName := SafetyReport.submitterName f;
          SafetyReport.date := SafetyReport.date f;
          SafetyReport.time := SafetyReport.time f;
          SafetyReport.department := SafetyReport.department f;
          SafetyReport.location := SafetyReport.location f;
          SafetyReport.description := SafetyReport.description f;
          SafetyReport.reportGroup := SafetyReport.reportGroup f;
          SafetyReport.consequences := SafetyReport.consequences f;
          SafetyReport.likelihood := SafetyReport.likelihood f;
          SafetyReport.status := SafetyReport.status f;
          SafetyReport.imageFile := SafetyReport.imageFile f;
          SafetyReport.selectedCategories := SafetyReport.selectedCategories f |};
     SafetyReport.actionPlans := SafetyReport.actionPlans s;
     SafetyReport.currentActionPlan := SafetyReport.currentActionPlan s;
     SafetyReport.loading := SafetyReport.loading s;
     SafetyReport.error := SafetyReport.error s;
     SafetyReport.validationErrors := SafetyReport.validationErrors s |}.

Definition handleCategorySelect (categoryId : string) : M SafetyReport.state unit :=
  set_state (setSelectedCategories (fun prev =>
    if bool_decide (categoryId ∈ prev)
    then filter (fun id => id ≠ categoryId) prev
    else prev ++ [categoryId])).

End SafetyReportWidgets.

(** *** The reports table: what the pagination bar shows *)

Module SafetyReportsTablePager.
Import SafetyReportsTable.

(** "Showing [from] to [to] of [total] results". *)
Record showing := { from : Z; to : Z; total : Z }.

Definition footer (s : state) : showing :=
  {| from := (currentPage s - 1) * reportsPerPage + 1;
     to := Z.min (currentPage s * reportsPerPage) (Z.of_nat (length (reports s)));
     total := Z.of_nat (length (reports s)) |}.

(** [Array.from({ length: totalPages }, (_, i) => i + 1)] *)
Definition page_buttons (s : state) : list Z :=
  (fun i : nat => Z.of_nat i + 1) <$> seq 0 (Z.to_nat (totalPages s)).

Definition previous_disabled (s : state) : bool := bool_decide (currentPage s = 1).

Definition next_disabled (s : state) : bool := bool_decide (currentPage s = totalPages s).

End SafetyReportsTablePager.

(** *** Object literals used as dictionaries *)

Module JsObject.

(** What reading a property of an object literal with string entries can
    give: a string of its own, or what the object inherits from
    [Object.prototype] under that name (a function, or for "__proto__" the
    prototype itself). *)
Inductive value :=
  | Str (s : string)
  | Inherited (name : string).

(** The property names of [Object.prototype] in a browser. *)
Definition prototype_keys : list string :=
  ["constructor"; "hasOwnProperty"; "isPrototypeOf"; "propertyIsEnumerable";
   "toLocaleString"; "toString"; "valueOf"; "__proto__";
   "__defineGetter__"; "__defineSetter__"; "__lookupGetter__"; "__lookupSetter__"].

(** [o[k]], over the own properties [o] of an object whose prototype is
    [Object.prototype]. *)
Definition get (o : gmap string string) (k : string) : option value :=
  match o !! k with
  | Some s => Some (Str s)
  | None => if bool_decide (k ∈ prototype_keys) then Some (Inherited k) else None
  end.

(** [o[k] = v] for a string [v].  An own property is overwritten.  Otherwise
    "__proto__" reaches the setter of [Object.prototype], which ignores a value
    that is neither an object nor null; every other inherited property is a
    writable data property, so the assignment adds an own property. *)
Definition set (k v : string) (o : gmap string string) : gmap string string :=
  match o !! k with
  | Some _ => <[k := v]> o
  | None => if bool_decide (k = "__proto__") then o else <[k := v]> o
  end.

(** Functions and objects are truthy; a string is unless it is empty. *)
Definition truthy (v : value) : bool :=
  match v with
  | Str s => Js.truthy s
  | Inherited _ => true
  end.

End JsObject.

(** *** The PDF document: loading and showing the images *)

Module SafetyReportPDFView.
Import Backend Run.

(** What [loadImages] reads of an action plan of the report. *)
Record plan_image := {
  plan_id : option string;
  plan_supporting_image : option string
}.

(** The module-level cache together with the [imageUrls] state: the own
    properties of an object that starts as [{}]. *)
Record component := {
  cache : SafetyReportPDF.state;
  imageUrls : gmap string string
}.

Definition setImageUrls (urls : gmap string string) (c : component) : component :=
  {| cache := cache c; imageUrls := urls |}.

(** A step on the cache, run inside the component. *)
Definition on_cache {A} (m : M SafetyReportPDF.state A) : M component A :=
  fun '(c, w) =>
    match m (cache c, w) with
    | (o, (u, w')) => (o, ({| cache := u; imageUrls := imageUrls c |}, w'))
    end.

(** A non-empty string behind a nullable. *)
Definition present (v : option string) : option string :=
  match v with
  | Some s => if Js.truthy s then Some s else None
  | None => None
  end.

Section Renderer.

Variable VITE_SUPABASE_URL : string.

(** The [for (const plan of report.actionPlans)] loop of [loadImages]. *)
Fixpoint load_plan_images (plans : list plan_image) (urls : gmap string string)
  : M component (gmap string string) :=
  match plans with
  | [] => ret urls
  | plan :: rest =>
      match present (plan_supporting_image plan), present (plan_id plan) with
      | Some src, Some id =>
          let* planImageUrl := on_cache (SafetyReportPDF.loadImage VITE_SUPABASE_URL src true) in
          match present planImageUrl with
          | Some u => load_plan_images rest (JsObject.set id u urls)
          | None => load_plan_images rest urls
          end
      | _, _ => load_plan_images rest urls
      end
  end.

Definition loadImages (supportingImage : option string) (actionPlans : list plan_image)
  : M component unit :=
  let urls : gmap string string := ∅ in
  let* urls :=
    match present supportingImage with
    | Some src =>
        let* mainImageUrl := on_cache (SafetyReportPDF.loadImage VITE_SUPABASE_URL src false) in
        match present mainImageUrl with
        | Some u => ret (JsObject.set "main" u urls)
        | None => ret urls
        end
    | None => ret urls
    end in
  let* urls := load_plan_images actionPlans urls in
  set_state (setImageUrls urls).

End Renderer.

(** The placeholder box, or [<Image src={imageUrl} />]. *)
Inductive rendered :=
  | Placeholder
  | Image (src : JsObject.value).

(** [renderImage(url)]: what [imageUrls[url]] gives, or [imageUrls.main] when
    [url] is empty; the placeholder when that is falsy. *)
Definition renderImage (c : component) (url : string) : rendered :=
  let imageUrl :=
    if Js.truthy url then JsObject.get (imageUrls c) url
    else JsObject.get (imageUrls c) "main" in
  match imageUrl with
  | Some v => if JsObject.truthy v then Image v else Placeholder
  | None => Placeholder
  end.

End SafetyReportPDFView.

(** ** Vocabulary of the further statements *)

Module Properties.
Import Backend Run.

(** The four entries of the action-plan form. *)
Definition plan_filled (p : SafetyReport.ActionPlan) : Prop :=
  SafetyReport.action p ≠ "" ∧ SafetyReport.dueDate p ≠ ""
  ∧ SafetyReport.responsiblePerson p ≠ "" ∧ SafetyReport.followUpContact p ≠ "".

End Properties.

(** ** Further concrete values *)

Module MoreExamples.
Import Backend.

(** A complete draft with a picture attached. *)
Definition draft_with_image : SafetyReport.state :=
  {| SafetyReport.form :=
       {| SafetyReport.actionPlanRequired := "no"; SafetyReport.subject := "SOP";
          SafetyReport.project := "p1"; SafetyReport.company := "c1";
          SafetyReport.submitterName := "Dana"; SafetyReport.date := "2024-05-01";
          SafetyReport.time := "08:00"; SafetyReport.department := "";
          SafetyReport.location := "Dock 3"; SafetyReport.description := "Spill";
          SafetyReport.reportGroup := "finding"; SafetyReport.consequences := "minor";
          SafetyReport.likelihood := "possible"; SafetyReport.status := "open";
          SafetyReport.imageFile := Some {| Js.file_name := "spill.png" |};
          SafetyReport.selectedCategories := ["k1"] |};
     SafetyReport.actionPlans := [Examples.staged "Clean up"];
     SafetyReport.currentActionPlan := SafetyReport.empty_plan;
     SafetyReport.loading := false; SafetyReport.error := None;
     SafetyReport.validationErrors := ∅ |}.

(** Nobody is signed in. *)
Definition signed_out (d : database) : world :=
  {| db := d; bucket_objects := []; web := fun _ => None;
     session_user := None; clock := 1714550400000; latency := fun _ => 120;
     trace := []; faults := Examples.no_faults; defaults := Examples.ids;
     events := [] |}.

(** The table on page [page], filtered by status and severity. *)
Definition filtered_table (page : Z) (st sev : string) : SafetyReportsTable.state :=
  {| SafetyReportsTable.reports := []; SafetyReportsTable.loading := false;
     SafetyReportsTable.error := ""; SafetyReportsTable.currentPage := page;
     SafetyReportsTable.totalPages := 1;
     SafetyReportsTable.reportToDelete := None;
     SafetyReportsTable.filters :=
       {| SafetyReportsTable.dateRange_start := "2024-01-01";
          SafetyReportsTable.dateRange_end := "";
          SafetyReportsTable.filter_status := st;
          SafetyReportsTable.severity := sev |};
     SafetyReportsTable.sortConfig :=
       {| SafetyReportsTable.key := "date";
          SafetyReportsTable.direction := "asc" |} |}.

(** The PDF component before its first render. *)
Definition fresh_component : SafetyReportPDFView.component :=
  {| SafetyReportPDFView.cache := {| SafetyReportPDF.imageCache := ∅ |};
     SafetyReportPDFView.imageUrls := ∅ |}.

(** An action plan of the report with a picture. *)
Definition pictured_plan : SafetyReportPDFView.plan_image :=
  {| SafetyReportPDFView.plan_id := Some "a1";
     SafetyReportPDFView.plan_supporting_image := Some "fence.png" |}.

End MoreExamples.

(** ** The create flow *)

Module CreateFlow.
Import Backend Run Claims.

Lemma category_rows_reference oid cats :
  Forall (fun l => cl_observation_id l = oid) (SafetyReport.category_rows oid cats).
Proof.
  apply Forall_forall. intros x Hx.
  apply list_elem_of_fmap in Hx as (y & -> & _). reflexivity.
Qed.

Lemma action_plan_rows_reference oid uid plans :
  Forall (fun p => api_observation_id p = oid) (SafetyReport.action_plan_rows oid uid plans).
Proof.
  apply Forall_forall. intros x Hx.
  apply list_elem_of_fmap in Hx as (y & -> & _). reflexivity.
Qed.

Lemma require_keeps ok key msg (errors : gmap string string) :
  errors ≠ ∅ → SafetyReport.require ok key msg errors ≠ ∅.
Proof.
  unfold SafetyReport.require. destruct ok; [done|].
  intros _. apply insert_non_empty.
Qed.

Lemma require_records key msg (errors : gmap string string) :
  SafetyReport.require false key msg errors ≠ ∅.
Proof. apply insert_non_empty. Qed.

Lemma truthy_empty : Js.truthy "" = false.
Proof. reflexivity. Qed.

Lemma validateForm_errors_incomplete s :
  incomplete s → SafetyReport.validateForm_errors s ≠ ∅.
Proof.
  unfold incomplete, SafetyReport.validateForm_errors.
  intros H.
  repeat (destruct H as [H|H];
    [rewrite H; repeat first [apply require_records | apply require_keeps] |]).
  destruct H as [H1 H2]. rewrite H1, H2. apply require_records.
Qed.

Ltac run_create :=
  unfold requests_of, world_after, state_after,
    SafetyReport.handleSubmit, SafetyReport.validateForm, SafetyReport.submit_body,
    finally, try_catch, bind, set_state, getUser, ret, throw, emit, date_now,
    Api.upload, Api.insert_observation, Api.insert_categories,
    Api.insert_action_plans, rpc;
  cbn -[pretty String.append SafetyReport.validateForm_errors
        SafetyReport.category_rows SafetyReport.action_plan_rows
        SafetyReport.observation_payload];
  repeat (case_match; simplify_eq/=).

(** C3. A draft with an empty required field, an empty selected-category
    list, or a required but missing action plan makes [validateForm] record at
    least one error and answer false, and [handleSubmit] then sends nothing to
    the backend: it only stores the errors and shows the error toast. *)
Theorem validate_rejects_incomplete s w :
  incomplete s →
  SafetyReport.validateForm_errors s ≠ ∅
  ∧ SafetyReport.validateForm s (s, w)
    = (Ok false, (SafetyReport.setValidationErrors (SafetyReport.validateForm_errors s) s, w))
  ∧ SafetyReport.handleSubmit s (s, w)
    = (Ok tt, (SafetyReport.setValidationErrors (SafetyReport.validateForm_errors s) s,
               with_events (events w ++ [ToastError "Please fill in all required fields"]) w))
  ∧ requests_of (SafetyReport.handleSubmit s) s w = [].
Proof.
  intros Hinc. pose proof (validateForm_errors_incomplete s Hinc) as Hne.
  assert (Hsz : bool_decide (size (SafetyReport.validateForm_errors s) = 0%nat) = false).
  { apply bool_decide_eq_false. by rewrite map_size_empty_iff. }
  split; [exact Hne|].
  assert (Hv : SafetyReport.validateForm s (s, w)
    = (Ok false, (SafetyReport.setValidationErrors (SafetyReport.validateForm_errors s) s, w))).
  { unfold SafetyReport.validateForm, bind, set_state, ret. by rewrite Hsz. }
  split; [exact Hv|].
  assert (Hs : SafetyReport.handleSubmit s (s, w)
    = (Ok tt, (SafetyReport.setValidationErrors (SafetyReport.validateForm_errors s) s,
               with_events (events w ++ [ToastError "Please fill in all required fields"]) w))).
  { unfold SafetyReport.handleSubmit. unfold bind at 1. rewrite Hv. reflexivity. }
  split; [exact Hs|].
  unfold requests_of. rewrite Hs. simpl. apply drop_all.
Qed.

(** All scalar fields filled, no category selected: validation fails and
    nothing is sent. *)
Lemma validate_rejects_incomplete_witness :
  incomplete (Examples.draft [] [])
  ∧ SafetyReport.validateForm_errors (Examples.draft [] []) ≠ ∅
  ∧ requests_of (SafetyReport.handleSubmit (Examples.draft [] []))
      (Examples.draft [] []) (Examples.world_of Examples.empty_db Examples.no_faults) = [].
Proof.
  assert (H : incomplete (Examples.draft [] [])).
  { unfold incomplete. simpl. do 11 right. left. reflexivity. }
  split; [exact H|].
  pose proof (validate_rejects_incomplete (Examples.draft [] [])
                (Examples.world_of Examples.empty_db Examples.no_faults) H) as (H1 & _ & _ & H4).
  split; [exact H1 | exact H4].
Defined.

(** C1. Among the requests [handleSubmit] sends, every write of category
    links or action plans comes after an observation insert that succeeded;
    its rows all carry the id the store gave that observation, whose row is in
    the store.  If the observation insert fails, no such write is sent. *)
Theorem observation_before_dependents s w :
  let w' := world_after (SafetyReport.handleSubmit s) s w in
  let n := length (trace w) in
  ∃ new, trace w' = trace w ++ new ∧
    (∀ i r, new !! i = Some r → dependent_write r = true →
       ∃ j p, (j < i)%nat ∧ new !! j = Some (InsertObservation p) ∧
              faults w (n + j)%nat = None ∧
              references (new_id (defaults w (n + j)%nat 0%nat)) r ∧
              ∃ row, row ∈ observation_details (db w') ∧
                     obs_id row = new_id (defaults w (n + j)%nat 0%nat)) ∧
    (∀ j p, new !! j = Some (InsertObservation p) →
            faults w (n + j)%nat ≠ None →
            ∀ r, r ∈ new → dependent_write r = false).
Proof.
  intros w' n. subst w' n.
  run_create.
  all: rewrite <- ?app_assoc; simpl.
  all: try (exists []; rewrite app_nil_r; split; [done|];
            split; [intros [|?] ?; done | intros [|?] ?; done]).
  all: eexists; (split; [reflexivity|]).
  all: rewrite ?length_app in *; simpl in *.
  all: split;
    [ intros [|[|[|[|?]]]] r ? ?; simplify_eq/=
    | intros [|[|[|[|?]]]] p ? Hf; simplify_eq/=;
      rewrite ?Nat.add_0_r in Hf; try congruence;
      intros r Hr; repeat (apply elem_of_cons in Hr as [->|Hr]; [reflexivity|]);
      by apply elem_of_nil in Hr ].
  all: first
    [ exists 0%nat; eexists; split; [lia|]; split; [reflexivity|];
      rewrite ?Nat.add_0_r; split; [assumption|]; split;
      [first [apply category_rows_reference | apply action_plan_rows_reference]|];
      eexists; split; [apply elem_of_app; right; apply list_elem_of_singleton; reflexivity
                      | reflexivity]
    | exists 1%nat; eexists; split; [lia|]; split; [reflexivity|];
      split; [assumption|]; split;
      [first [apply category_rows_reference | apply action_plan_rows_reference]|];
      eexists; split; [apply elem_of_app; right; apply list_elem_of_singleton; reflexivity
                      | reflexivity] ].
Qed.

(** A complete draft with one category and two staged plans, no fault: the
    observation insert, then the two dependent writes. *)
Example create_requests_in_order :
  let s := Examples.draft ["k1"] [Examples.staged "a"; Examples.staged "b"] in
  dependent_write
    <$> requests_of (SafetyReport.handleSubmit s) s
          (Examples.world_of Examples.empty_db Examples.no_faults)
  = [false; true; true].
Proof. vm_compute. reflexivity. Qed.

(** The same draft when the observation insert fails: it is the only
    request, and the store is as before. *)
Example create_stops_when_observation_fails :
  let s := Examples.draft ["k1"] [Examples.staged "a"; Examples.staged "b"] in
  let w := Examples.world_of Examples.empty_db (Examples.fail_at 0) in
  dependent_write <$> requests_of (SafetyReport.handleSubmit s) s w = [false]
  ∧ db (world_after (SafetyReport.handleSubmit s) s w) = db w.
Proof. vm_compute. split; reflexivity. Qed.

(** The staged plans are stored together or not at all. *)
Lemma create_plans_all_or_nothing s w :
  let w' := world_after (SafetyReport.handleSubmit s) s w in
  length (action_plans (db w')) = length (action_plans (db w))
  ∨ length (action_plans (db w'))
    = (length (action_plans (db w)) + length (SafetyReport.actionPlans s))%nat.
Proof.
  intros w'. subst w'. run_create.
  all: try (left; reflexivity).
  all: right; rewrite length_app, length_imap;
    unfold SafetyReport.action_plan_rows; by rewrite length_map.
Qed.

(** C2, as the code has it.  [handleSubmit] sends at most one action-plan
    write.  That write comes after an observation insert of the same run that
    succeeded; the row this insert stored is the one row the run adds to the
    observations, and the write carries one row per staged plan, in order,
    each with the id of that new observation and the id of the signed-in
    user.  The store afterwards holds either the action plans it held before
    or those followed by one stored row per staged plan. *)
Theorem create_plans_single_bulk_write s w :
  let w' := world_after (SafetyReport.handleSubmit s) s w in
  let n := length (trace w) in
  ∃ new, trace w' = trace w ++ new
    ∧ (plan_writes new ≤ 1)%nat
    ∧ (∀ i rows, new !! i = Some (InsertActionPlans rows) →
         ∃ j p uid row, (j < i)%nat
           ∧ new !! j = Some (InsertObservation p)
           ∧ faults w (n + j)%nat = None
           ∧ session_user w = Some uid
           ∧ row = store_observation (defaults w (n + j)%nat 0%nat) p
           ∧ obs_id row = new_id (defaults w (n + j)%nat 0%nat)
           ∧ observation_details (db w') = observation_details (db w) ++ [row]
           ∧ rows = SafetyReport.action_plan_rows (obs_id row) uid (SafetyReport.actionPlans s))
    ∧ (action_plans (db w') = action_plans (db w)
       ∨ ∃ i rows, new !! i = Some (InsertActionPlans rows)
           ∧ faults w (n + i)%nat = None
           ∧ length rows = length (SafetyReport.actionPlans s)
           ∧ action_plans (db w')
             = action_plans (db w)
               ++ imap (fun j p => store_action_plan (defaults w (n + i)%nat j) p) rows).
Proof.
  intros w' n. subst w' n. run_create.
  all: rewrite <- ?app_assoc; simpl.
  all: try (exists []; rewrite app_nil_r; split; [done|];
            split; [unfold plan_writes; simpl; lia|];
            split; [intros [|?] ? ?; done | by left]).
  all: eexists; (split; [reflexivity|]).
  all: split; [unfold plan_writes; cbn; lia|].
  all: rewrite ?length_app in *; simpl in *.
  all: split;
    [ intros [|[|[|[|?]]]] rows ?; simplify_eq/=
    | first
      [ by left
      | right ] ].
  all: rewrite <- ?Nat.add_assoc in *; simpl in *; rewrite ?Nat.add_0_r in *.
  all: try (first
    [ exists 0%nat; do 3 eexists; split; [lia|]; split; [reflexivity|];
      rewrite ?Nat.add_0_r; split; [assumption|]; by split_and!
    | exists 1%nat; do 3 eexists; split; [lia|]; split; [reflexivity|];
      split; [assumption|]; by split_and! ]).
  all: first
    [ exists 1%nat; eexists; split; [reflexivity|]
    | exists 2%nat; eexists; split; [reflexivity|]
    | exists 3%nat; eexists; split; [reflexivity|] ];
    (split; [assumption|]);
    (split; [unfold SafetyReport.action_plan_rows; by rewrite length_map | reflexivity]).
Qed.

(** With two staged plans one action-plan write is sent, not two, and under
    no behaviour of the backend is exactly one of the two plans stored. *)
Lemma two_staged_plans_one_bulk_write :
  let s := Examples.draft ["k1"] [Examples.staged "a"; Examples.staged "b"] in
  length (SafetyReport.actionPlans s) = 2%nat
  ∧ plan_writes (requests_of (SafetyReport.handleSubmit s) s
                   (Examples.world_of Examples.empty_db Examples.no_faults)) = 1%nat
  ∧ ¬ ∃ f, partial_success s (Examples.world_of Examples.empty_db f).
Proof.
  split; [reflexivity|]. split; [vm_compute; reflexivity|].
  intros [f H]. unfold partial_success in H.
  pose proof (create_plans_all_or_nothing
                (Examples.draft ["k1"] [Examples.staged "a"; Examples.staged "b"])
                (Examples.world_of Examples.empty_db f)) as Hall.
  simpl in Hall, H. lia.
Qed.

End CreateFlow.

(** ** The edit flow *)

Module EditFlow.
Import Backend Run Claims.


Lemma category_ids_of_rows oid cats :
  cl_category_id <$> ReportView.category_rows oid cats = cats.
Proof.
  unfold ReportView.category_rows. induction cats as [|c cats IH]; [reflexivity|].
  simpl. f_equal. exact IH.
Qed.

Lemma rows_all_linked oid cats :
  filter (fun l => cl_observation_id l = oid) (ReportView.category_rows oid cats)
  = ReportView.category_rows oid cats.
Proof.
  induction cats as [|c cats IH]; [reflexivity|].
  simpl. rewrite filter_cons_True by reflexivity. f_equal. exact IH.
Qed.

Lemma none_linked_after_delete oid (l : list category_link) :
  filter (fun x => cl_observation_id x = oid) (filter (fun x => cl_observation_id x ≠ oid) l) = [].
Proof.
  induction l as [|x l IH]; [reflexivity|].
  destruct (decide (cl_observation_id x = oid)) as [E|E].
  - rewrite (filter_cons_False _ x l) by (intros H; by apply H). exact IH.
  - rewrite (filter_cons_True _ x l) by exact E.
    rewrite filter_cons_False by exact E. exact IH.
Qed.

(** Delete-all-then-insert leaves exactly the inserted categories linked. *)
Lemma categories_replaced oid cats (old : list category_link) d :
  observation_categories d
  = filter (fun l => cl_observation_id l ≠ oid) old ++ ReportView.category_rows oid cats →
  categories_of oid d = cats.
Proof.
  intros E. unfold categories_of. rewrite E.
  rewrite filter_app, none_linked_after_delete, rows_all_linked. simpl.
  apply category_ids_of_rows.
Qed.

Ltac run_edit :=
  unfold update_succeeded, requests_of, world_after, state_after,
    ReportView.handleSubmit, ReportView.write_back,
    finally, try_catch, bind, set_state, getUser, ret, throw, emit, date_now,
    Api.upload, Api.update_observation, Api.update_plans_status,
    Api.delete_categories, Api.insert_categories, rpc, on_db;
  cbn -[pretty String.append ReportView.category_rows ReportView.update_payload
        ReportView.rejected Backend.update_observation
        Backend.update_plans_status Backend.delete_categories bool_decide];
  repeat (case_match; simplify_eq/=).

Ltac no_success H :=
  exfalso; rewrite <- ?app_assoc in H; simpl in H;
  first [ apply app_inv_head in H; discriminate H
        | rewrite <- (app_nil_r (events _)) in H at 1;
          apply app_inv_head in H; discriminate H ].



(** C8, as the code has it.  With a non-empty selection, an update that
    runs to its end has sent, as its last two requests, the delete of all
    category links of the observation followed by the insert of one link per
    selected category, and the categories then linked to the observation are
    the selected ones, in order. *)
Theorem category_links_replaced sanitize s w oid :
  ReportView.id s = Some oid →
  let w' := world_after (ReportView.handleSubmit sanitize s) s w in
  let selected := ReportView.selectedCategories (ReportView.form s) in
  selected ≠ [] →
  update_succeeded sanitize s w →
  categories_of oid (db w') = selected
  ∧ ∃ pre, requests_of (ReportView.handleSubmit sanitize s) s w
           = pre ++ [DeleteCategories oid;
                     InsertCategories (ReportView.category_rows oid selected)].
Proof.
  intros Hid w' selected Hsel. subst w' selected. revert Hid.
  run_edit.
  all: intros Hid Hok; simplify_eq.
  all: try (no_success Hok).
  all: try match goal with
       | E : bool_decide (0 < length ?l)%nat = false |- _ =>
           apply bool_decide_eq_false in E; destruct l; [contradiction | simpl in E; lia]
       end.
  all: split; [eapply categories_replaced; reflexivity|].
  all: rewrite <- ?app_assoc; rewrite drop_app_length; simpl.
  all: first [ by exists [] | by eexists [_] | by eexists [_; _] | by eexists [_; _; _] ].
Qed.

(** With nothing selected the update leaves the category links alone. *)
Lemma empty_selection_sends_no_link_write sanitize s w :
  ReportView.selectedCategories (ReportView.form s) = [] →
  observation_categories (db (world_after (ReportView.handleSubmit sanitize s) s w))
  = observation_categories (db w).
Proof.
  intros Hsel.
  run_edit.
  all: try reflexivity.
  all: match goal with
       | E : bool_decide (0 < length ?l)%nat = true |- _ =>
           apply bool_decide_eq_true in E; rewrite Hsel in E; simpl in E; lia
       end.
Qed.

Lemma category_links_replaced_witness :
  let w := Examples.world_of Examples.small_db Examples.no_faults in
  let s := Examples.editing "o1" "open" ["k3"; "k1"] [] in
  let w' := world_after (ReportView.handleSubmit Examples.keep_name s) s w in
  update_succeeded Examples.keep_name s w
  ∧ categories_of "o1" (db w') = ["k3"; "k1"].
Proof.
  intros w s w'.
  assert (Hok : update_succeeded Examples.keep_name s w) by (vm_compute; reflexivity).
  split; [exact Hok|].
  apply (category_links_replaced Examples.keep_name s w "o1" eq_refl); [discriminate | exact Hok].
Defined.

(** Observation "o1" is linked to "k1" and "k2"; the user deselects both and
    saves.  The update runs to its end with the one observation write, and
    "o1" is still linked to "k1" and "k2". *)
Lemma empty_selection_keeps_links :
  let w := Examples.world_of Examples.small_db Examples.no_faults in
  let s := Examples.editing "o1" "open" [] [] in
  let w' := world_after (ReportView.handleSubmit Examples.keep_name s) s w in
  ReportView.selectedCategories (ReportView.form s) = []
  ∧ update_succeeded Examples.keep_name s w
  ∧ length (requests_of (ReportView.handleSubmit Examples.keep_name s) s w) = 1%nat
  ∧ categories_of "o1" (db w') = ["k1"; "k2"]
  ∧ categories_of "o1" (db w') ≠ ReportView.selectedCategories (ReportView.form s).
Proof. vm_compute. repeat split; discriminate. Qed.

(** C10. With ten or more action plans on the page [handleAddActionPlan]
    leaves the page state as it is and shows the error toast; and a list of at
    most ten plans is never longer than ten after the call. *)
Theorem add_action_plan_capped s w :
  let run := ReportView.handleAddActionPlan s (s, w) in
  ((10 ≤ length (ReportView.actionPlans s))%nat →
   run = (Ok tt, (s, with_events
                       (events w ++ [ToastError "Maximum of 10 action plans allowed per report"]) w)))
  ∧ ((length (ReportView.actionPlans s) ≤ 10)%nat →
     (length (ReportView.actionPlans run.2.1) ≤ 10)%nat)
  ∧ ((length (ReportView.actionPlans s) < 10)%nat →
     ReportView.actionPlans run.2.1
     = ReportView.actionPlans s ++ [ReportView.newActionPlan (clock w)]).
Proof.
  intros run. subst run. unfold ReportView.handleAddActionPlan.
  destruct (bool_decide (10 ≤ length (ReportView.actionPlans s))%nat) eqn:E.
  - apply bool_decide_eq_true in E. split; [reflexivity|]. split.
    + intros H. exact H.
    + intros H. lia.
  - apply bool_decide_eq_false in E. split; [intros H; lia|]. split.
    + intros _. simpl. rewrite length_app. simpl. lia.
    + intros _. reflexivity.
Qed.

Lemma add_action_plan_capped_witness :
  let s := Examples.editing "o1" "open" ["k1"]
             (replicate 10 (Examples.local_plan "a1" "open")) in
  let w := Examples.world_of Examples.small_db Examples.no_faults in
  (10 ≤ length (ReportView.actionPlans s))%nat
  ∧ (ReportView.handleAddActionPlan s (s, w)).2.1 = s
  ∧ (length (ReportView.actionPlans (ReportView.handleAddActionPlan s (s, w)).2.1) ≤ 10)%nat.
Proof.
  intros s w.
  assert (H : (10 ≤ length (ReportView.actionPlans s))%nat) by (simpl; lia).
  split; [exact H|].
  destruct (add_action_plan_capped s w) as (H1 & H2 & _).
  split.
  - rewrite (H1 H). reflexivity.
  - apply H2. simpl. lia.
Defined.

End EditFlow.

(** ** The reports table *)

Module ReportsTable.
Import Backend Run Claims.

Ltac run_table :=
  unfold requests_of, world_after, state_after,
    SafetyReportsTable.confirmDelete, SafetyReportsTable.loadReports,
    finally, try_catch, bind, set_state, getUser, ret, throw, emit, date_now,
    Api.delete_action_plans, Api.delete_observation, Api.select_reports, rpc, on_db;
  cbn -[pretty String.append SafetyReportsTable.build_query Backend.select_reports
        Backend.delete_action_plans Backend.delete_observation bool_decide
        Js.ceil_div];
  repeat (case_match; simplify_eq/=).

Lemma no_plans_after_delete oid d :
  plans_of oid (Backend.delete_action_plans oid d) = [].
Proof.
  unfold plans_of, Backend.delete_action_plans. simpl.
  induction (action_plans d) as [|x l IH]; [reflexivity|].
  destruct (decide (ap_observation_id x = oid)) as [E|E].
  - rewrite (filter_cons_False _ x l) by (intros H; by apply H). exact IH.
  - rewrite (filter_cons_True _ x l) by exact E.
    rewrite filter_cons_False by exact E. exact IH.
Qed.

Lemma observation_gone_after_delete id d r :
  r ∈ observation_details (Backend.delete_observation id d) → obs_id r ≠ id.
Proof.
  unfold Backend.delete_observation. simpl.
  intros [H _]%list_elem_of_filter. exact H.
Qed.

(** C5. [confirmDelete] first sends the delete of the action plans whose
    [observation_id] is the target's id; the delete of the observation row is
    its second request and is sent only when the first one succeeded.  When
    both succeed the store holds no action plan of that observation, and no
    observation with that id. *)
Theorem delete_plans_then_observation s w report :
  SafetyReportsTable.reportToDelete s = Some report →
  let oid := SafetyReportsTable.id report in
  let n := length (trace w) in
  let new := requests_of (SafetyReportsTable.confirmDelete s) s w in
  let w' := world_after (SafetyReportsTable.confirmDelete s) s w in
  (∃ rest, new = DeleteActionPlans oid :: rest)
  ∧ (∀ j, new !! j = Some (DeleteObservation oid) → j = 1%nat ∧ faults w n = None)
  ∧ (faults w n = None → new !! 1%nat = Some (DeleteObservation oid))
  ∧ (faults w n = None → faults w (n + 1)%nat = None →
     plans_of oid (db w') = []
     ∧ ∀ r, r ∈ observation_details (db w') → obs_id r ≠ oid).
Proof.
  intros Hr oid n new w'. subst oid n new w'. revert Hr.
  run_table.
  all: intros Hr; simplify_eq.
  all: rewrite <- ?app_assoc; rewrite drop_app_length; simpl.
  all: rewrite ?length_app in *; simpl in *.
  all: split; [eexists; reflexivity|].
  all: split; [intros [|[|[|?]]] Hj; simplify_eq/=; by split|].
  all: split; [intros Hf; first [reflexivity | congruence]|].
  all: intros Hf1 Hf2; try congruence.
  all: split; [apply no_plans_after_delete | apply observation_gone_after_delete].
Qed.

Lemma delete_plans_then_observation_witness :
  let d := Examples.small_db in
  let target := Examples.listed d (Examples.observation "o1" "open" "minor") in
  let s := Examples.table 1 [target] (Some target) in
  let w := Examples.world_of d Examples.no_faults in
  let w' := world_after (SafetyReportsTable.confirmDelete s) s w in
  plans_of "o1" (db w) ≠ []
  ∧ requests_of (SafetyReportsTable.confirmDelete s) s w !! 1%nat
    = Some (DeleteObservation "o1")
  ∧ plans_of "o1" (db w') = [].
Proof.
  intros d target s w w'.
  split; [vm_compute; discriminate|].
  destruct (delete_plans_then_observation s w target eq_refl) as (_ & _ & H3 & H4).
  split.
  - apply H3. reflexivity.
  - apply H4; reflexivity.
Defined.

Lemma ceil_div_spec a b :
  0 < b → b * (Js.ceil_div a b - 1) < a ≤ b * Js.ceil_div a b.
Proof.
  intros Hb. unfold Js.ceil_div.
  pose proof (Z.mul_div_le (- a) b Hb).
  pose proof (Z.mul_succ_div_gt (- a) b Hb).
  lia.
Qed.

(** What a successful [loadReports] shows: rows [(k-1)*10 .. k*10-1] of the
    filtered and sorted result set, and a total-page count of zero, because
    the reply to a query without a count option carries no count. *)
Lemma loadReports_page s w :
  faults w (length (trace w)) = None →
  1 ≤ SafetyReportsTable.currentPage s →
  let k := SafetyReportsTable.currentPage s in
  let q := SafetyReportsTable.build_query s in
  let s' := state_after (SafetyReportsTable.loadReports s) s w in
  requests_of (SafetyReportsTable.loadReports s) s w = [SelectReports q]
  ∧ q_range q = ((k - 1) * 10, k * 10 - 1)
  ∧ SafetyReportsTable.reports s'
    = Examples.listed (db w)
        <$> take 10 (drop (Z.to_nat ((k - 1) * 10)) (result_set q (db w)))
  ∧ SafetyReportsTable.totalPages s' = 0.
Proof.
  intros Hf Hk k q s'. subst k q s'.
  run_table.
  rewrite drop_app_length.
  split; [reflexivity|].
  split; [unfold SafetyReportsTable.reportsPerPage; f_equal; lia|].
  split; [|reflexivity].
  unfold Backend.select_reports, SafetyReportsTable.build_query, window,
    SafetyReportsTable.reportsPerPage, Examples.listed.
  simpl.
  replace ((SafetyReportsTable.currentPage s - 1) * 10 + 10 - 1
           - (SafetyReportsTable.currentPage s - 1) * 10 + 1) with 10 by lia.
  rewrite <- list_fmap_compose. reflexivity.
Qed.

(** C6, evaluated.  Eleven observations match the (empty) filters; page 1 is
    loaded without a fault.  The page shows the first ten rows of the result
    set, and the total-page count is 0, whereas eleven rows make two pages. *)
Lemma eleven_rows_zero_pages :
  let s := Examples.table 1 [] None in
  let w := Examples.world_of Examples.eleven_db Examples.no_faults in
  let q := SafetyReportsTable.build_query s in
  let s' := state_after (SafetyReportsTable.loadReports s) s w in
  length (matching (q_filters q) (db w)) = 11%nat
  ∧ SafetyReportsTable.reports s'
    = Examples.listed (db w) <$> take 10 (result_set q (db w))
  ∧ Js.ceil_div 11 SafetyReportsTable.reportsPerPage = 2
  ∧ SafetyReportsTable.totalPages s' = 0.
Proof. vm_compute. repeat split. Qed.

Lemma export_row_cells format_PPP r row :
  SafetyReportsTable.export_row format_PPP r = Some row →
  SafetyReportsTable.cell "Severity" row = Some (SafetyReportsTable.consequences r)
  ∧ SafetyReportsTable.cell "Status" row = Some (SafetyReportsTable.status r).
Proof.
  unfold SafetyReportsTable.export_row.
  destruct (format_PPP (SafetyReportsTable.date r)); [|discriminate].
  destruct (format_PPP (SafetyReportsTable.created_at r)); [|discriminate].
  simpl. intros [= <-]. split; reflexivity.
Qed.

(** C9. When the dates of the loaded rows can be formatted, [exportToCSV]
    sends nothing to the backend and writes one sheet with exactly one row per
    element of [reports], in order, whose "Severity" cell is that report's
    [consequences] and whose "Status" cell is its [status]. *)
Theorem export_matches_loaded_rows format_PPP today s w :
  Forall (fun r => is_Some (format_PPP (SafetyReportsTable.date r))
                   ∧ is_Some (format_PPP (SafetyReportsTable.created_at r)))
         (SafetyReportsTable.reports s) →
  ∃ sheet,
    SafetyReportsTable.exportToCSV format_PPP today s (s, w)
    = (Ok tt, (s, with_events
                    (events w ++ [WriteFile ("safety-reports-" +:+ today (clock w) +:+ ".csv")
                                            sheet]) w))
    ∧ length sheet = length (SafetyReportsTable.reports s)
    ∧ ∀ i r, SafetyReportsTable.reports s !! i = Some r →
        ∃ row, sheet !! i = Some row
          ∧ SafetyReportsTable.cell "Severity" row = Some (SafetyReportsTable.consequences r)
          ∧ SafetyReportsTable.cell "Status" row = Some (SafetyReportsTable.status r).
Proof.
  intros Hdates.
  assert (Hsome : is_Some (mapM (SafetyReportsTable.export_row format_PPP)
                                (SafetyReportsTable.reports s))).
  { apply mapM_is_Some_2. eapply Forall_impl; [exact Hdates|].
    intros r [[d Hd] [c Hc]]. unfold compose, SafetyReportsTable.export_row.
    rewrite Hd, Hc. simpl. eauto. }
  destruct Hsome as [sheet Hsheet]. exists sheet.
  split; [|split].
  - unfold SafetyReportsTable.exportToCSV. rewrite Hsheet. reflexivity.
  - symmetry. eapply length_mapM. exact Hsheet.
  - intros i r Hi. apply mapM_Some_1 in Hsheet.
    destruct (Forall2_lookup_l _ _ _ _ _ Hsheet Hi) as (row & Hrow & Hexp).
    exists row. split; [exact Hrow|]. by apply (export_row_cells format_PPP).
Qed.

(** Page 1 of eleven matching observations is loaded and exported: the sheet
    has the ten loaded rows, not eleven. *)
Lemma export_matches_loaded_rows_witness :
  let w := Examples.world_of Examples.eleven_db Examples.no_faults in
  let s0 := Examples.table 1 [] None in
  let s := state_after (SafetyReportsTable.loadReports s0) s0 w in
  length (matching [] (db w)) = 11%nat
  ∧ length (SafetyReportsTable.reports s) = 10%nat
  ∧ ∃ sheet,
      length sheet = 10%nat
      ∧ ∀ i r, SafetyReportsTable.reports s !! i = Some r →
          ∃ row, sheet !! i = Some row
            ∧ SafetyReportsTable.cell "Severity" row = Some (SafetyReportsTable.consequences r)
            ∧ SafetyReportsTable.cell "Status" row = Some (SafetyReportsTable.status r).
Proof.
  intros w s0 s.
  split; [vm_compute; reflexivity|].
  assert (Hlen : length (SafetyReportsTable.reports s) = 10%nat) by (vm_compute; reflexivity).
  split; [exact Hlen|].
  assert (Hdates :
    Forall (fun r => is_Some (Examples.show_date (SafetyReportsTable.date r))
                     ∧ is_Some (Examples.show_date (SafetyReportsTable.created_at r)))
           (SafetyReportsTable.reports s)).
  { apply (bool_decide_unpack _). vm_compute. exact I. }
  destruct (export_matches_loaded_rows Examples.show_date Examples.show_day s w Hdates)
    as (sheet & _ & Hsize & Hcells).
  exists sheet. split; [by rewrite Hsize | exact Hcells].
Defined.

End ReportsTable.

(** ** The image cache of the PDF renderer *)

Module ImageCache.
Import Backend Run Claims.

Ltac run_pdf :=
  unfold requests_of, world_after, state_after, SafetyReportPDF.loadImage,
    try_catch, bind, set_state, ret, throw, date_now, SafetyReportPDF.get_cache,
    Api.fetch, rpc;
  cbn -[pretty String.append SafetyReportPDF.resolve SafetyReportPDF.cache_hit
        Js.startsWith SafetyReportPDF.CACHE_TTL];
  repeat (case_match; simplify_eq/=).

Lemma loadImage_keeps_no_data_keys base src b u w :
  no_data_keys (SafetyReportPDF.imageCache u) →
  no_data_keys (SafetyReportPDF.imageCache
                  (state_after (SafetyReportPDF.loadImage base src b) u w)).
Proof.
  intros Hinv. run_pdf.
  all: try exact Hinv.
  intros k e. rewrite lookup_insert. case_decide; [|apply Hinv].
  intros _. by subst.
Qed.

Lemma reachable_no_data_keys base u :
  reachable base u → no_data_keys (SafetyReportPDF.imageCache u).
Proof.
  induction 1 as [|u w src b _ IH].
  - intros k e. simpl. by rewrite lookup_empty.
  - by apply loadImage_keeps_no_data_keys.
Qed.

Lemma cache_hit_fresh (c : gmap string SafetyReportPDF.cached) now src e :
  c !! src = Some e →
  now - SafetyReportPDF.timestamp e < SafetyReportPDF.CACHE_TTL →
  SafetyReportPDF.cache_hit c now src = Some (SafetyReportPDF.url e).
Proof.
  intros He Hlt. unfold SafetyReportPDF.cache_hit. rewrite He.
  by rewrite bool_decide_eq_true_2.
Qed.

Lemma cache_hit_stale (c : gmap string SafetyReportPDF.cached) now src e :
  c !! src = Some e →
  SafetyReportPDF.CACHE_TTL ≤ now - SafetyReportPDF.timestamp e →
  SafetyReportPDF.cache_hit c now src = None.
Proof.
  intros He Hge. unfold SafetyReportPDF.cache_hit. rewrite He.
  rewrite bool_decide_eq_false_2; [reflexivity | lia].
Qed.

(** C7. The freshness window is five minutes in milliseconds.  For a source
    the cache holds an entry for: a request made less than five minutes after
    the entry's timestamp returns the cached value, fetches nothing and leaves
    the cache and its timestamp as they are; a request made five minutes or
    more after it fetches the resolved address, and when the fetch succeeds it
    returns the fetched value and stores it under the source with the time at
    which the fetch returned. *)
Theorem cache_reuse_within_five_minutes base u w src b e :
  reachable base u →
  SafetyReportPDF.imageCache u !! src = Some e →
  let run := SafetyReportPDF.loadImage base src b (u, w) in
  let n := length (trace w) in
  SafetyReportPDF.CACHE_TTL = 300000
  ∧ (clock w - SafetyReportPDF.timestamp e < SafetyReportPDF.CACHE_TTL →
     run = (Ok (Some (SafetyReportPDF.url e)), (u, w)))
  ∧ (SafetyReportPDF.CACHE_TTL ≤ clock w - SafetyReportPDF.timestamp e →
     requests_of (SafetyReportPDF.loadImage base src b) u w
     = [Fetch (SafetyReportPDF.resolve base src b)]
     ∧ (∀ body, faults w n = None →
                web w (SafetyReportPDF.resolve base src b) = Some body →
                run.1 = Ok (Some body)
                ∧ SafetyReportPDF.imageCache run.2.1 !! src
                  = Some {| SafetyReportPDF.url := body;
                            SafetyReportPDF.timestamp := clock w + latency w n |})).
Proof.
  intros Hreach He run n. subst run n.
  split; [reflexivity|]. split.
  - intros Hfresh.
    unfold SafetyReportPDF.loadImage, try_catch, bind, SafetyReportPDF.get_cache, date_now.
    simpl. rewrite (cache_hit_fresh _ _ _ _ He Hfresh). reflexivity.
  - intros Hstale.
    pose proof (reachable_no_data_keys base u Hreach src e He) as Hkey.
    unfold requests_of, SafetyReportPDF.loadImage, try_catch, bind,
      SafetyReportPDF.get_cache, date_now, Api.fetch, rpc.
    simpl. rewrite (cache_hit_stale _ _ _ _ He Hstale), Hkey.
    split.
    + destruct (faults w (length (trace w))); simpl.
      * by rewrite drop_app_length.
      * destruct (web w _); simpl; by rewrite drop_app_length.
    + intros body Hf Hweb. rewrite Hf. simpl. rewrite Hweb. simpl.
      split; [reflexivity|]. apply lookup_insert_eq.
Qed.

(** The entry for "pic.png" is stamped 1120.  A request at 301119 is served
    from the cache; a request at 301120 fetches the picture again. *)
Lemma cache_reuse_within_five_minutes_witness :
  let u := Examples.warmed in
  let e := {| SafetyReportPDF.url := Examples.png; SafetyReportPDF.timestamp := 1120 |} in
  SafetyReportPDF.imageCache u !! "pic.png" = Some e
  ∧ SafetyReportPDF.loadImage Examples.base_url "pic.png" false (u, Examples.online 301119)
    = (Ok (Some Examples.png), (u, Examples.online 301119))
  ∧ requests_of (SafetyReportPDF.loadImage Examples.base_url "pic.png" false)
      u (Examples.online 301120)
    = [Fetch "https://proj.example.co/storage/v1/object/public/safety-images/pic.png"].
Proof.
  intros u e.
  assert (Hr : reachable Examples.base_url u).
  { apply (reach_load Examples.base_url _ (Examples.online 1000) "pic.png" false).
    apply reach_start. }
  assert (He : SafetyReportPDF.imageCache u !! "pic.png" = Some e) by (vm_compute; reflexivity).
  split; [exact He|]. split.
  - apply (cache_reuse_within_five_minutes Examples.base_url u
             (Examples.online 301119) "pic.png" false e Hr He).
    vm_compute. reflexivity.
  - apply (cache_reuse_within_five_minutes Examples.base_url u
             (Examples.online 301120) "pic.png" false e Hr He).
    vm_compute. discriminate.
Defined.

End ImageCache.

(** ** More on the create page *)

Module CreatePage.
Import Backend Run Claims Properties.

(** *** Category buttons *)

Section Toggle.

Variable categoryId : string.
Variable prev : list string.

Let next : list string :=
  if bool_decide (categoryId ∈ prev)
  then filter (fun id => id ≠ categoryId) prev
  else prev ++ [categoryId].

Lemma toggle_flips : categoryId ∈ next ↔ categoryId ∉ prev.
Proof.
  unfold next. case_bool_decide as Hin.
  - rewrite list_elem_of_filter. split; [intros [Hne _]; by destruct Hne | done].
  - rewrite elem_of_app, list_elem_of_singleton. split; [done | auto].
Qed.

Lemma toggle_others c : c ≠ categoryId → c ∈ next ↔ c ∈ prev.
Proof.
  intros Hc. unfold next. case_bool_decide.
  - rewrite list_elem_of_filter. split; [by intros [_ ?] | by split].
  - rewrite elem_of_app, list_elem_of_singleton. split; [by intros [?|?] | auto].
Qed.

Lemma toggle_NoDup : NoDup prev → NoDup next.
Proof.
  intros Hnd. unfold next. case_bool_decide as Hin.
  - by apply NoDup_filter.
  - apply NoDup_app. split; [done|]. split; [|apply NoDup_singleton].
    intros x Hx ->%list_elem_of_singleton. contradiction.
Qed.

Lemma toggle_back :
  categoryId ∉ prev →
  (if bool_decide (categoryId ∈ next)
   then filter (fun id => id ≠ categoryId) next
   else next ++ [categoryId]) = prev.
Proof.
  intros Hnot. unfold next.
  rewrite (bool_decide_eq_false_2 _ Hnot).
  rewrite bool_decide_eq_true_2 by (apply elem_of_app; right; by apply list_elem_of_singleton).
  rewrite filter_app, filter_cons_False, filter_nil, app_nil_r by (intros H; by apply H).
  clear next. induction prev as [|x l IH]; [reflexivity|].
  apply not_elem_of_cons in Hnot as [Hx Hl].
  rewrite filter_cons_True by congruence. f_equal. by apply IH.
Qed.

End Toggle.

(** X1. A click on a category button of the create page flips whether that
    category is selected, leaves every other category as it was and keeps a
    duplicate-free selection duplicate-free.  It touches nothing else: no
    request, no message, every other entry of the form, the staged plans, the
    plan being typed, the loading flag, the stored error and the validation
    errors are as before.  A second click on a category that was not selected
    gives back the list the page started with. *)
Theorem create_category_click categoryId (s : SafetyReport.state) w :
  let click := SafetyReportWidgets.handleCategorySelect categoryId in
  let s' := state_after click s w in
  let before := SafetyReport.selectedCategories (SafetyReport.form s) in
  let after := SafetyReport.selectedCategories (SafetyReport.form s') in
  let f := SafetyReport.form s in
  let f' := SafetyReport.form s' in
  (categoryId ∈ after ↔ categoryId ∉ before)
  ∧ (∀ c, c ≠ categoryId → c ∈ after ↔ c ∈ before)
  ∧ (NoDup before → NoDup after)
  ∧ world_after click s w = w
  ∧ SafetyReport.actionPlans s' = SafetyReport.actionPlans s
  ∧ (categoryId ∉ before →
     SafetyReport.selectedCategories (SafetyReport.form (state_after click s' w)) = before)
  ∧ (SafetyReport.actionPlanRequired f' = SafetyReport.actionPlanRequired f
     ∧ SafetyReport.subject f' = SafetyReport.subject f
     ∧ SafetyReport.project f' = SafetyReport.project f
     ∧ SafetyReport.company f' = SafetyReport.company f
     ∧ SafetyReport.submitterName f' = SafetyReport.submitterName f
     ∧ SafetyReport.date f' = SafetyReport.date f
     ∧ SafetyReport.time f' = SafetyReport.time f
     ∧ SafetyReport.department f' = SafetyReport.department f
     ∧ SafetyReport.location f' = SafetyReport.location f
     ∧ SafetyReport.description f' = SafetyReport.description f
     ∧ SafetyReport.reportGroup f' = SafetyReport.reportGroup f
     ∧ SafetyReport.consequences f' = SafetyReport.consequences f
     ∧ SafetyReport.likelihood f' = SafetyReport.likelihood f
     ∧ SafetyReport.status f' = SafetyReport.status f
     ∧ SafetyReport.imageFile f' = SafetyReport.imageFile f)
  ∧ SafetyReport.currentActionPlan s' = SafetyReport.currentActionPlan s
  ∧ SafetyReport.loading s' = SafetyReport.loading s
  ∧ SafetyReport.error s' = SafetyReport.error s
  ∧ SafetyReport.validationErrors s' = SafetyReport.validationErrors s
  ∧ click (s, w) = (Ok tt, (s', w)).
Proof.
  intros click s' before after f f'. subst click s' before after f f'. simpl.
  split; [apply toggle_flips|]. split; [apply toggle_others|].
  split; [apply toggle_NoDup|]. split; [reflexivity|]. split; [reflexivity|].
  split; [apply toggle_back|].
  split; [split_and!; reflexivity|].
  split_and!; reflexivity.
Qed.

(** *** Staging action plans *)

Lemma truthy_false (x : string) : Js.truthy x = false → x = "".
Proof.
  unfold Js.truthy. intros H. apply bool_decide_eq_false in H.
  destruct (decide (x = "")); [done | contradiction].
Qed.

Lemma truthy_true (x : string) : x ≠ "" → Js.truthy x = true.
Proof. intros H. by apply bool_decide_eq_true. Qed.

(** X2. With one of the four action-plan entries empty, [handleSaveActionPlan]
    only shows the error toast: nothing is staged, the form keeps its
    contents and no request is sent. *)
Theorem save_plan_needs_all_entries addAnother (s : SafetyReport.state) w :
  ¬ plan_filled (SafetyReport.currentActionPlan s) →
  SafetyReport.handleSaveActionPlan addAnother s (s, w)
  = (Ok tt, (s, with_events (events w ++ [ToastError "Please fill in all action plan fields"]) w)).
Proof.
  intros Hnot. unfold SafetyReport.handleSaveActionPlan.
  destruct (Js.truthy (SafetyReport.action _)) eqn:E1; [|reflexivity].
  destruct (Js.truthy (SafetyReport.dueDate _)) eqn:E2; [|reflexivity].
  destruct (Js.truthy (SafetyReport.responsiblePerson _)) eqn:E3; [|reflexivity].
  destruct (Js.truthy (SafetyReport.followUpContact _)) eqn:E4; [|reflexivity].
  exfalso. apply Hnot. unfold Js.truthy in *.
  unfold plan_filled. split_and!; eapply bool_decide_eq_true_1; eassumption.
Qed.

Lemma save_plan_needs_all_entries_witness :
  let s := Examples.draft ["k1"] [] in
  ¬ plan_filled (SafetyReport.currentActionPlan s)
  ∧ state_after (SafetyReport.handleSaveActionPlan true s) s
      (Examples.world_of Examples.empty_db Examples.no_faults) = s.
Proof.
  intros s.
  assert (H : ¬ plan_filled (SafetyReport.currentActionPlan s)).
  { intros (H & _). by apply H. }
  split; [exact H|].
  unfold state_after.
  rewrite (save_plan_needs_all_entries true s
             (Examples.world_of Examples.empty_db Examples.no_faults) H).
  reflexivity.
Defined.

(** X3. With the four entries filled, [handleSaveActionPlan] appends the
    draft plan after the plans already staged and sends nothing to the
    backend.  "Save & Add Another" empties the form; plain "Save" keeps it, so
    that a second "Save" stages the same plan once more. *)
Theorem save_plan_stages_the_draft addAnother (s : SafetyReport.state) w :
  plan_filled (SafetyReport.currentActionPlan s) →
  let p := SafetyReport.currentActionPlan s in
  let s' := state_after (SafetyReport.handleSaveActionPlan addAnother s) s w in
  SafetyReport.actionPlans s' = SafetyReport.actionPlans s ++ [p]
  ∧ SafetyReport.currentActionPlan s'
    = (if addAnother then SafetyReport.empty_plan else p)
  ∧ requests_of (SafetyReport.handleSaveActionPlan addAnother s) s w = []
  ∧ db (world_after (SafetyReport.handleSaveActionPlan addAnother s) s w) = db w
  ∧ (addAnother = false →
     ∀ w2, SafetyReport.actionPlans
             (state_after (SafetyReport.handleSaveActionPlan false s') s' w2)
           = SafetyReport.actionPlans s ++ [p; p]).
Proof.
  intros (H1 & H2 & H3 & H4) p s'. subst p s'.
  unfold state_after, requests_of, world_after, SafetyReport.handleSaveActionPlan.
  rewrite !truthy_true by assumption. simpl.
  destruct addAnother; simpl.
  - rewrite drop_all. repeat split; done.
  - rewrite drop_all. repeat split; try done.
    intros _ w2. rewrite !truthy_true by assumption. simpl.
    by rewrite <- app_assoc.
Qed.

Lemma save_plan_stages_the_draft_witness :
  let s := SafetyReport.setCurrentActionPlan (Examples.staged "Fence the pit")
             (Examples.draft ["k1"] [Examples.staged "Clean up"]) in
  let w := Examples.world_of Examples.empty_db Examples.no_faults in
  plan_filled (SafetyReport.currentActionPlan s)
  ∧ SafetyReport.actionPlans (state_after (SafetyReport.handleSaveActionPlan true s) s w)
    = [Examples.staged "Clean up"; Examples.staged "Fence the pit"].
Proof.
  intros s w.
  assert (H : plan_filled (SafetyReport.currentActionPlan s))
    by (unfold plan_filled; split_and!; discriminate).
  split; [exact H|].
  apply (save_plan_stages_the_draft true s w H).
Defined.

(** *** Validation *)

Lemma require_true key msg (errors : gmap string string) :
  SafetyReport.require true key msg errors = errors.
Proof. reflexivity. Qed.

Lemma complete_errors_empty s : ¬ incomplete s → SafetyReport.validateForm_errors s = ∅.
Proof.
  unfold incomplete. intros H. unfold SafetyReport.validateForm_errors.
  repeat match goal with
  | |- context [SafetyReport.require (Js.truthy ?x)] =>
      let E := fresh "E" in
      destruct (Js.truthy x) eqn:E;
      [rewrite require_true | exfalso; apply H; apply truthy_false in E; tauto]
  end.
  destruct (SafetyReport.selectedCategories (SafetyReport.form s)) eqn:Ec;
    [exfalso; apply H; tauto|].
  destruct (bool_decide (SafetyReport.actionPlanRequired (SafetyReport.form s) = "yes")) eqn:Er;
    [|reflexivity].
  destruct (SafetyReport.actionPlans s) eqn:Ep; [|reflexivity].
  apply bool_decide_eq_true in Er. exfalso. apply H. tauto.
Qed.

(** X4. [validateForm] accepts exactly the drafts that miss no required
    entry: the error object is empty if and only if the eleven scalar fields
    are non-empty, a category is selected, and a required action plan is
    staged; the department is not among the required fields.  For such a
    draft it stores the empty error object and answers true. *)
Theorem validate_accepts_exactly_complete (s : SafetyReport.state) w :
  (SafetyReport.validateForm_errors s = ∅ ↔ ¬ incomplete s)
  ∧ (¬ incomplete s →
     SafetyReport.validateForm s (s, w)
     = (Ok true, (SafetyReport.setValidationErrors ∅ s, w))).
Proof.
  split.
  - split.
    + intros He Hinc. by apply (CreateFlow.validateForm_errors_incomplete s Hinc).
    + apply complete_errors_empty.
  - intros Hc. unfold SafetyReport.validateForm, bind, set_state, ret.
    rewrite (complete_errors_empty s Hc). reflexivity.
Qed.

(** *** Submitting *)

Ltac run_complete Hc :=
  unfold requests_of, world_after, state_after,
    SafetyReport.handleSubmit, SafetyReport.validateForm;
  rewrite (complete_errors_empty _ Hc);
  CreateFlow.run_create.

(** X5. For a draft that passes validation, [handleSubmit] always ends with
    the page no longer loading, and it always tells the user how it went:
    either it stores no error, shows the success toast and navigates to the
    detail page of an observation of the store, or it stores an error message
    and shows that same message as the error toast. *)
Theorem submit_always_reports (s : SafetyReport.state) w :
  ¬ incomplete s →
  let s' := state_after (SafetyReport.handleSubmit s) s w in
  let w' := world_after (SafetyReport.handleSubmit s) s w in
  SafetyReport.loading s' = false
  ∧ SafetyReport.validationErrors s' = ∅
  ∧ ((SafetyReport.error s' = None
      ∧ ∃ row, row ∈ observation_details (db w')
          ∧ events w' = events w ++ [ToastSuccess "Safety report saved successfully!";
                                     Navigate ("/reports/" +:+ obs_id row)])
     ∨ (∃ msg, SafetyReport.error s' = Some msg
          ∧ events w' = events w ++ [ToastError msg])).
Proof.
  intros Hc s' w'. subst s' w'.
  run_complete Hc.
  all: split; [reflexivity|]; split; [reflexivity|].
  all: first
    [ right; eexists; split; reflexivity
    | left; split; [reflexivity|]; eexists; split;
      [apply elem_of_app; right; apply list_elem_of_singleton; reflexivity
      | by rewrite <- app_assoc] ].
Qed.

Ltac complete_draft :=
  let H := fresh in
  intros H; unfold incomplete in H; simpl in H;
  repeat (destruct H as [H|H]; [discriminate H|]);
  first [discriminate H | destruct H as [H _]; discriminate H].

Lemma submit_always_reports_witness :
  let s := Examples.draft ["k1"] [Examples.staged "Clean up"] in
  let w := Examples.world_of Examples.empty_db (Examples.fail_at 1) in
  ¬ incomplete s
  ∧ SafetyReport.loading (state_after (SafetyReport.handleSubmit s) s w) = false
  ∧ SafetyReport.error (state_after (SafetyReport.handleSubmit s) s w)
    = Some "Failed to save categories".
Proof.
  intros s w.
  assert (H : ¬ incomplete s) by complete_draft.
  split; [exact H|].
  split; [apply (submit_always_reports s w H) | vm_compute; reflexivity].
Defined.

(** X6. When nobody is signed in, [handleSubmit] of a valid draft sends no
    request at all; it stores and shows "User not authenticated". *)
Theorem submit_needs_a_user (s : SafetyReport.state) w :
  ¬ incomplete s →
  session_user w = None →
  requests_of (SafetyReport.handleSubmit s) s w = []
  ∧ db (world_after (SafetyReport.handleSubmit s) s w) = db w
  ∧ SafetyReport.error (state_after (SafetyReport.handleSubmit s) s w)
    = Some "User not authenticated"
  ∧ events (world_after (SafetyReport.handleSubmit s) s w)
    = events w ++ [ToastError "User not authenticated"].
Proof.
  intros Hc Hu.
  run_complete Hc.
  all: rewrite drop_all; repeat split.
Qed.

Lemma submit_needs_a_user_witness :
  let s := Examples.draft ["k1"] [] in
  let w := MoreExamples.signed_out Examples.empty_db in
  ¬ incomplete s
  ∧ session_user w = None
  ∧ requests_of (SafetyReport.handleSubmit s) s w = [].
Proof.
  intros s w.
  assert (H : ¬ incomplete s) by complete_draft.
  split; [exact H|]. split; [reflexivity|].
  apply (submit_needs_a_user s w H). reflexivity.
Defined.

(** X7. When the draft has an image and its upload fails, the upload is the
    only request of [handleSubmit]: no observation, link or action plan is
    written, and the error of the upload is what the page stores. *)
Theorem submit_stops_at_failed_upload (s : SafetyReport.state) w uid file e :
  ¬ incomplete s →
  session_user w = Some uid →
  SafetyReport.imageFile (SafetyReport.form s) = Some file →
  faults w (length (trace w)) = Some e →
  requests_of (SafetyReport.handleSubmit s) s w
  = [Upload "safety-images" (pretty (clock w) +:+ "-" +:+ Js.file_name file)]
  ∧ db (world_after (SafetyReport.handleSubmit s) s w) = db w
  ∧ bucket_objects (world_after (SafetyReport.handleSubmit s) s w) = bucket_objects w
  ∧ SafetyReport.error (state_after (SafetyReport.handleSubmit s) s w)
    = Some (if Js.instanceof_Error e then Js.message e else "Failed to save report").
Proof.
  intros Hc Hu Hf He.
  run_complete Hc.
  all: rewrite drop_app_length; repeat split.
Qed.

Lemma submit_stops_at_failed_upload_witness :
  let s := MoreExamples.draft_with_image in
  let w := Examples.world_of Examples.empty_db (Examples.fail_at 0) in
  ¬ incomplete s
  ∧ requests_of (SafetyReport.handleSubmit s) s w
    = [Upload "safety-images" "1714550400000-spill.png"]
  ∧ db (world_after (SafetyReport.handleSubmit s) s w) = Examples.empty_db.
Proof.
  intros s w.
  assert (H : ¬ incomplete s) by complete_draft.
  split; [exact H|].
  destruct (submit_stops_at_failed_upload s w "u1" {| Js.file_name := "spill.png" |}
              (Js.Exn false "backend error") H eq_refl eq_refl eq_refl) as (H1 & H2 & _).
  split; [exact H1 | exact H2].
Defined.

Lemma fmap_imap_const {A B C} (f : nat → A → B) (g : B → C) (h : A → C) (l : list A) :
  (∀ j x, g (f j x) = h x) → g <$> imap f l = h <$> l.
Proof.
  intros Hf. revert f Hf. induction l as [|x l IH]; intros f Hf; [reflexivity|].
  simpl. rewrite Hf. f_equal. apply IH. intros j y. apply Hf.
Qed.

Lemma Forall_imap_all {A B} (f : nat → A → B) (P : B → Prop) (l : list A) :
  (∀ j x, P (f j x)) → Forall P (imap f l).
Proof.
  intros Hf. revert f Hf. induction l as [|x l IH]; intros f Hf; [constructor|].
  simpl. constructor; [apply Hf|]. apply IH. intros j y. apply Hf.
Qed.

Lemma stored_plan_actions df oid uid plans :
  ap_action <$> imap (fun j p => store_action_plan (df j) p)
                     (SafetyReport.action_plan_rows oid uid plans)
  = SafetyReport.action <$> plans.
Proof.
  rewrite (fmap_imap_const _ _ api_action) by reflexivity.
  unfold SafetyReport.action_plan_rows. rewrite <- list_fmap_compose. reflexivity.
Qed.

Lemma stored_plans_owned df oid uid plans :
  Forall (fun r => ap_observation_id r = oid ∧ ap_created_by r = uid
                   ∧ ap_supporting_image r = None)
         (imap (fun j p => store_action_plan (df j) p)
               (SafetyReport.action_plan_rows oid uid plans)).
Proof.
  unfold SafetyReport.action_plan_rows.
  induction plans as [|p plans IH] in df |- *; [constructor|].
  simpl. constructor; [done|]. apply (IH (fun j => df (S j))).
Qed.

(** X8. When somebody is signed in and no request fails, [handleSubmit] of a
    valid draft adds one observation row built from the draft, one category
    link per selected category and one action plan per staged plan, in their
    order, all referencing the new row and none with an image; then it
    navigates to the detail page of the new row. *)
Theorem submit_stores_the_whole_draft (s : SafetyReport.state) w uid :
  ¬ incomplete s →
  session_user w = Some uid →
  (∀ k, faults w k = None) →
  let w' := world_after (SafetyReport.handleSubmit s) s w in
  let imagePath :=
    match SafetyReport.imageFile (SafetyReport.form s) with
    | Some file => pretty (clock w) +:+ "-" +:+ Js.file_name file
    | None => ""
    end in
  ∃ row stored,
    observation_details (db w') = observation_details (db w) ++ [row]
    ∧ action_plans (db w') = action_plans (db w) ++ stored
    ∧ obs_fields row = oi_fields (SafetyReport.observation_payload s imagePath uid)
    ∧ obs_created_by row = uid
    ∧ observation_categories (db w')
      = observation_categories (db w)
        ++ SafetyReport.category_rows (obs_id row)
             (SafetyReport.selectedCategories (SafetyReport.form s))
    ∧ ap_action <$> stored = SafetyReport.action <$> SafetyReport.actionPlans s
    ∧ Forall (fun r => ap_observation_id r = obs_id row ∧ ap_created_by r = uid
                       ∧ ap_supporting_image r = None) stored
    ∧ events w' = events w ++ [ToastSuccess "Safety report saved successfully!";
                               Navigate ("/reports/" +:+ obs_id row)].
Proof.
  intros Hc Hu Hall w' imagePath. subst w' imagePath.
  run_complete Hc.
  all: try match goal with
       | H : faults _ _ = Some _ |- _ => rewrite Hall in H; discriminate H
       end.
  all: repeat match goal with
       | E : bool_decide (0 < length ?l)%nat = false |- _ =>
           apply bool_decide_eq_false in E;
           let El := fresh in
           destruct l eqn:El; [clear E | simpl in E; lia]
       end.
  all: rewrite <- ?app_assoc; simpl.
  all: eexists; eexists.
  all: split; [reflexivity|]; split; [first [reflexivity | symmetry; apply app_nil_r]|].
  all: split;
    [ unfold SafetyReport.observation_payload; simpl;
      repeat match goal with H : Js.truthy _ = _ |- _ => rewrite H end; reflexivity |].
  all: split; [reflexivity|].
  all: split; [first [reflexivity | by rewrite app_nil_r]|].
  all: split; [first [apply stored_plan_actions | reflexivity]|].
  all: split; [first [apply stored_plans_owned | constructor] | reflexivity].
Qed.

Lemma submit_stores_the_whole_draft_witness :
  let s := MoreExamples.draft_with_image in
  let w := Examples.world_of Examples.empty_db Examples.no_faults in
  let w' := world_after (SafetyReport.handleSubmit s) s w in
  ¬ incomplete s
  ∧ ∃ row stored,
      observation_details (db w') = [row]
      ∧ supporting_image (obs_fields row) = Some "1714550400000-spill.png"
      ∧ action_plans (db w') = stored
      ∧ ap_action <$> stored = ["Clean up"].
Proof.
  intros s w w'.
  assert (H : ¬ incomplete s) by complete_draft.
  split; [exact H|].
  destruct (submit_stores_the_whole_draft s w "u1" H eq_refl (fun _ => eq_refl))
    as (row & stored & Hd & Hp & Hf & _ & _ & Ha & _).
  exists row, stored. split; [exact Hd|]. split; [by rewrite Hf|].
  split; [exact Hp | exact Ha].
Defined.

(** X9. When the write of the category links fails, [handleSubmit] stops
    there: the new observation row stays in the store without links, no
    action-plan write is sent, and the page stores "Failed to save
    categories". *)
Theorem failed_links_leave_the_observation (s : SafetyReport.state) w j rows :
  let new := requests_of (SafetyReport.handleSubmit s) s w in
  let w' := world_after (SafetyReport.handleSubmit s) s w in
  let s' := state_after (SafetyReport.handleSubmit s) s w in
  new !! j = Some (InsertCategories rows) →
  faults w (length (trace w) + j)%nat ≠ None →
  (∃ row, observation_details (db w') = observation_details (db w) ++ [row])
  ∧ observation_categories (db w') = observation_categories (db w)
  ∧ action_plans (db w') = action_plans (db w)
  ∧ plan_writes new = 0%nat
  ∧ SafetyReport.error s' = Some "Failed to save categories".
Proof.
  intros new w' s'. subst new w' s'.
  CreateFlow.run_create.
  all: rewrite <- ?app_assoc; rewrite ?drop_app_length, ?drop_all; simpl.
  all: rewrite ?length_app in *; simpl in *.
  all: intros Hj Hf.
  all: destruct j as [|[|[|[|?]]]]; simplify_eq/=.
  all: rewrite <- ?Nat.add_assoc in *; simpl in *.
  all: rewrite ?Nat.add_0_r in Hf; try congruence.
  all: split; [eexists; reflexivity|]; repeat split.
Qed.

Lemma failed_links_leave_the_observation_witness :
  let s := Examples.draft ["k1"] [Examples.staged "Clean up"] in
  let w := Examples.world_of Examples.empty_db (Examples.fail_at 1) in
  let w' := world_after (SafetyReport.handleSubmit s) s w in
  length (observation_details (db w')) = 1%nat
  ∧ observation_categories (db w') = []
  ∧ action_plans (db w') = [].
Proof.
  intros s w w'.
  destruct (failed_links_leave_the_observation s w 1%nat
              (SafetyReport.category_rows "row-0-0" ["k1"])) as ([row Hrow] & Hc & Hp & _).
  - vm_compute. reflexivity.
  - vm_compute. discriminate.
  - subst w'. rewrite Hrow, Hc, Hp. repeat split.
Defined.

Lemma errors_ignore_requirement v (s : SafetyReport.state) :
  SafetyReport.actionPlans s ≠ [] →
  SafetyReport.validateForm_errors (SafetyReportWidgets.setActionPlanRequired v s)
  = SafetyReport.validateForm_errors s.
Proof.
  intros Hp. unfold SafetyReport.validateForm_errors. simpl.
  destruct (SafetyReport.actionPlans s) as [|p l]; [contradiction|].
  simpl. by rewrite !andb_false_r.
Qed.

(** X10. Once a plan is staged, the answer to "Action Plan Required?" no
    longer matters to [handleSubmit]: with "no" it sends the same requests,
    the staged plans included, and leaves the same store as with any other
    answer. *)
Theorem staged_plans_are_sent_whatever_the_answer v (s : SafetyReport.state) w :
  SafetyReport.actionPlans s ≠ [] →
  let s2 := SafetyReportWidgets.setActionPlanRequired v s in
  requests_of (SafetyReport.handleSubmit s2) s2 w
  = requests_of (SafetyReport.handleSubmit s) s w
  ∧ db (world_after (SafetyReport.handleSubmit s2) s2 w)
    = db (world_after (SafetyReport.handleSubmit s) s w).
Proof.
  intros Hp s2. subst s2.
  unfold requests_of, world_after, SafetyReport.handleSubmit, SafetyReport.validateForm.
  rewrite (errors_ignore_requirement v s Hp).
  unfold SafetyReport.submit_body, SafetyReport.observation_payload, finally, try_catch,
    bind, set_state, getUser, ret, throw, emit, date_now, Api.upload,
    Api.insert_observation, Api.insert_categories, Api.insert_action_plans, rpc.
  cbn -[pretty String.append SafetyReport.validateForm_errors
        SafetyReport.category_rows SafetyReport.action_plan_rows].
  repeat (case_match; simplify_eq/=); split; reflexivity.
Qed.

Lemma staged_plans_are_sent_whatever_the_answer_witness :
  let s := Examples.draft ["k1"] [Examples.staged "Clean up"] in
  let s2 := SafetyReportWidgets.setActionPlanRequired "yes" s in
  let w := Examples.world_of Examples.empty_db Examples.no_faults in
  SafetyReport.actionPlans s ≠ []
  ∧ plan_writes (requests_of (SafetyReport.handleSubmit s) s w) = 1%nat
  ∧ requests_of (SafetyReport.handleSubmit s2) s2 w
    = requests_of (SafetyReport.handleSubmit s) s w.
Proof.
  intros s s2 w.
  assert (H : SafetyReport.actionPlans s ≠ []) by discriminate.
  split; [exact H|]. split; [vm_compute; reflexivity|].
  apply (staged_plans_are_sent_whatever_the_answer "yes" s w H).
Defined.

End CreatePage.

(** ** More on the edit page *)

Module EditPage.
Import Backend Run Claims Properties.

(** X11. A click on a category button of the edit page flips whether that
    category is selected, leaves every other category as it was, keeps a
    duplicate-free selection duplicate-free and sends nothing; a second click
    on a category that was not selected gives back the list the page started
    with. *)
Theorem edit_category_click categoryId (s : ReportView.state) w :
  let click := ReportView.handleCategorySelect categoryId in
  let s' := state_after click s w in
  let before := ReportView.selectedCategories (ReportView.form s) in
  let after := ReportView.selectedCategories (ReportView.form s') in
  (categoryId ∈ after ↔ categoryId ∉ before)
  ∧ (∀ c, c ≠ categoryId → c ∈ after ↔ c ∈ before)
  ∧ (NoDup before → NoDup after)
  ∧ world_after click s w = w
  ∧ (categoryId ∉ before →
     ReportView.selectedCategories (ReportView.form (state_after click s' w)) = before).
Proof.
  intros click s' before after. subst click s' before after. simpl.
  split; [apply CreatePage.toggle_flips|]. split; [apply CreatePage.toggle_others|].
  split; [apply CreatePage.toggle_NoDup|]. split; [reflexivity|].
  apply CreatePage.toggle_back.
Qed.

Lemma required_filled_true f :
  ReportView.required_filled f = true →
  ReportView.project f ≠ "" ∧ ReportView.company f ≠ ""
  ∧ ReportView.submitterName f ≠ "" ∧ ReportView.date f ≠ ""
  ∧ ReportView.time f ≠ "" ∧ ReportView.location f ≠ ""
  ∧ ReportView.description f ≠ "" ∧ ReportView.reportGroup f ≠ ""
  ∧ ReportView.consequences f ≠ "" ∧ ReportView.likelihood f ≠ ""
  ∧ ReportView.subject f ≠ "".
Proof.
  unfold ReportView.required_filled, Js.truthy. intros H.
  repeat (apply andb_true_iff in H as [H ?]).
  split_and!; eapply bool_decide_eq_true_1; eassumption.
Qed.

Lemma rejected_None f :
  ReportView.rejected f = None →
  ReportView.required_filled f = true
  ∧ ReportView.subject f ∈ ["SOSV : Safety Observation Site Visit"; "SOP"; "RES"]
  ∧ ReportView.reportGroup f ∈ ["finding"; "positive"]
  ∧ ReportView.consequences f ∈ ["minor"; "moderate"; "major"; "severe"]
  ∧ ReportView.likelihood f ∈ ["unlikely"; "possible"; "likely"; "very-likely"].
Proof.
  unfold ReportView.rejected.
  destruct (ReportView.required_filled f); [|discriminate].
  repeat (case_bool_decide; [|discriminate]). simpl. intros _. split_and!; done.
Qed.

(** X12. The edit page's [handleSubmit] sends a request only when the route
    carries a non-empty observation id, somebody is signed in, the eleven
    required fields are non-empty, and subject, report group, consequences and
    likelihood each hold one of the values the handler lists; for the report
    group these are "finding" and "positive". *)
Theorem update_writes_only_checked_drafts sanitize (s : ReportView.state) w :
  requests_of (ReportView.handleSubmit sanitize s) s w ≠ [] →
  let f := ReportView.form s in
  (∃ oid, ReportView.id s = Some oid ∧ oid ≠ "")
  ∧ session_user w ≠ None
  ∧ (ReportView.project f ≠ "" ∧ ReportView.company f ≠ ""
     ∧ ReportView.submitterName f ≠ "" ∧ ReportView.date f ≠ ""
     ∧ ReportView.time f ≠ "" ∧ ReportView.location f ≠ ""
     ∧ ReportView.description f ≠ "" ∧ ReportView.reportGroup f ≠ ""
     ∧ ReportView.consequences f ≠ "" ∧ ReportView.likelihood f ≠ ""
     ∧ ReportView.subject f ≠ "")
  ∧ ReportView.subject f ∈ ["SOSV : Safety Observation Site Visit"; "SOP"; "RES"]
  ∧ ReportView.reportGroup f ∈ ["finding"; "positive"]
  ∧ ReportView.consequences f ∈ ["minor"; "moderate"; "major"; "severe"]
  ∧ ReportView.likelihood f ∈ ["unlikely"; "possible"; "likely"; "very-likely"].
Proof.
  intros Hreq f. subst f. revert Hreq.
  EditFlow.run_edit.
  all: rewrite ?drop_all; intros Hreq; try contradiction.
  all: match goal with
       | H : ReportView.rejected _ = None |- _ =>
           apply rejected_None in H as (Hr & ? & ? & ? & ?);
           apply required_filled_true in Hr
       end.
  all: split;
    [ eexists; split; [reflexivity|];
      match goal with
      | H : negb (Js.truthy _) = false |- _ =>
          apply negb_false_iff in H; eapply bool_decide_eq_true_1; exact H
      end |].
  all: split; [congruence|]; split_and!; tauto.
Qed.

Lemma update_writes_only_checked_drafts_witness :
  let s := Examples.editing "o1" "open" ["k1"] [] in
  let w := Examples.world_of Examples.small_db Examples.no_faults in
  requests_of (ReportView.handleSubmit Examples.keep_name s) s w ≠ []
  ∧ ReportView.reportGroup (ReportView.form s) ∈ ["finding"; "positive"].
Proof.
  intros s w.
  assert (H : requests_of (ReportView.handleSubmit Examples.keep_name s) s w ≠ [])
    by (vm_compute; discriminate).
  split; [exact H|].
  apply (update_writes_only_checked_drafts Examples.keep_name s w H).
Defined.

(** X13. Whenever the route carries an observation id, [handleSubmit] of the
    edit page ends with the page no longer saving and with exactly one
    message to the user: the success toast followed by the navigation to the
    list, or one error toast. *)
Theorem update_always_reports sanitize (s : ReportView.state) w oid :
  ReportView.id s = Some oid →
  oid ≠ "" →
  let s' := state_after (ReportView.handleSubmit sanitize s) s w in
  let w' := world_after (ReportView.handleSubmit sanitize s) s w in
  ReportView.saving s' = false
  ∧ (events w' = events w ++ [ToastSuccess "Report updated successfully"; Navigate "/"]
     ∨ ∃ msg, events w' = events w ++ [ToastError msg]).
Proof.
  intros Hid Hne s' w'. subst s' w'. revert Hid.
  EditFlow.run_edit.
  all: intros Hid; simplify_eq.
  all: try match goal with
       | H : negb (Js.truthy _) = true |- _ =>
           apply negb_true_iff, CreatePage.truthy_false in H; contradiction
       end.
  all: split; [reflexivity|].
  all: first [ right; eexists; reflexivity | left; by rewrite <- app_assoc ].
Qed.

Lemma update_always_reports_witness :
  let s := Examples.editing "o1" "closed" ["k1"] [] in
  let w := Examples.world_of Examples.small_db (Examples.fail_at 1) in
  ReportView.saving (state_after (ReportView.handleSubmit Examples.keep_name s) s w) = false
  ∧ events (world_after (ReportView.handleSubmit Examples.keep_name s) s w)
    = [ToastError "Failed to update report"].
Proof.
  intros s w. split.
  - apply (update_always_reports Examples.keep_name s w "o1" eq_refl). discriminate.
  - vm_compute. reflexivity.
Defined.

(** X14. When the update of the observation row fails, it is the last request
    of [handleSubmit]: the store and the action plans shown on the page are
    left as they were. *)
Theorem failed_update_changes_nothing sanitize (s : ReportView.state) w oid j p :
  let new := requests_of (ReportView.handleSubmit sanitize s) s w in
  let w' := world_after (ReportView.handleSubmit sanitize s) s w in
  let s' := state_after (ReportView.handleSubmit sanitize s) s w in
  new !! j = Some (UpdateObservation oid p) →
  faults w (length (trace w) + j)%nat ≠ None →
  length new = S j
  ∧ db w' = db w
  ∧ ReportView.actionPlans s' = ReportView.actionPlans s.
Proof.
  intros new w' s'. subst new w' s'.
  EditFlow.run_edit.
  all: rewrite <- ?app_assoc; rewrite ?drop_app_length, ?drop_all; simpl.
  all: rewrite ?length_app in *; simpl in *.
  all: intros Hj Hf.
  all: destruct j as [|[|[|[|[|?]]]]]; simplify_eq/=.
  all: rewrite <- ?Nat.add_assoc in *; simpl in *.
  all: rewrite ?Nat.add_0_r in Hf; try congruence.
  all: repeat split.
Qed.

Lemma failed_update_changes_nothing_witness :
  let s := Examples.editing "o1" "closed" ["k3"] [] in
  let w := Examples.world_of Examples.small_db (Examples.fail_at 0) in
  length (requests_of (ReportView.handleSubmit Examples.keep_name s) s w) = 1%nat
  ∧ db (world_after (ReportView.handleSubmit Examples.keep_name s) s w) = Examples.small_db.
Proof.
  intros s w.
  destruct (failed_update_changes_nothing Examples.keep_name s w "o1" 0%nat
              (ReportView.update_payload (ReportView.form s) "")) as (H1 & H2 & _).
  - vm_compute. reflexivity.
  - vm_compute. discriminate.
  - split; [exact H1 | exact H2].
Defined.

(** X15. The links are replaced in two requests, and the second can fail
    alone: when the delete of the category links succeeded and the insert
    that follows it failed, the observation is left with no category link at
    all and the page shows "Failed to update report". *)
Theorem failed_insert_loses_the_links sanitize (s : ReportView.state) w oid j :
  let new := requests_of (ReportView.handleSubmit sanitize s) s w in
  let w' := world_after (ReportView.handleSubmit sanitize s) s w in
  new !! j = Some (DeleteCategories oid) →
  faults w (length (trace w) + j)%nat = None →
  faults w (length (trace w) + S j)%nat ≠ None →
  categories_of oid (db w') = []
  ∧ events w' = events w ++ [ToastError "Failed to update report"].
Proof.
  intros new w'. subst new w'.
  EditFlow.run_edit.
  all: rewrite <- ?app_assoc; rewrite ?drop_app_length, ?drop_all; simpl.
  all: rewrite ?length_app in *; simpl in *.
  all: intros Hj Hf1 Hf2.
  all: destruct j as [|[|[|[|[|?]]]]]; simplify_eq/=.
  all: rewrite <- ?Nat.add_assoc in *; simpl in *.
  all: rewrite ?Nat.add_0_r in *; try congruence.
  all: split; [|reflexivity].
  all: unfold categories_of; simpl; by rewrite EditFlow.none_linked_after_delete.
Qed.

Lemma failed_insert_loses_the_links_witness :
  let s := Examples.editing "o1" "open" ["k3"] [] in
  let w := Examples.world_of Examples.small_db (Examples.fail_at 2) in
  categories_of "o1" (db w) = ["k1"; "k2"]
  ∧ categories_of "o1" (db (world_after (ReportView.handleSubmit Examples.keep_name s) s w))
    = [].
Proof.
  intros s w. split; [vm_compute; reflexivity|].
  apply (failed_insert_loses_the_links Examples.keep_name s w "o1" 1%nat).
  - vm_compute. reflexivity.
  - vm_compute. reflexivity.
  - vm_compute. discriminate.
Defined.

Lemma fmap_update_same {A B} (k : A → B) (c : A → bool) (g : A → A) (l : list A) :
  (∀ r, k (g r) = k r) →
  k <$> map (fun r => if c r then g r else r) l = k <$> l.
Proof.
  intros Hk. induction l as [|x l IH]; [reflexivity|].
  simpl. f_equal; [destruct (c x); [apply Hk | reflexivity] | exact IH].
Qed.

Lemma filter_update_others {A} (k : A → string) (g : A → A) (oid : string) (l : list A) :
  (∀ r, k (g r) = k r) →
  filter (fun r => k r ≠ oid) (map (fun r => if bool_decide (k r = oid) then g r else r) l)
  = filter (fun r => k r ≠ oid) l.
Proof.
  intros Hk. induction l as [|x l IH]; [reflexivity|].
  simpl. case_bool_decide as E.
  - rewrite !filter_cons_False; [exact IH | by intros H; apply H | rewrite Hk; by intros H; apply H].
  - rewrite !filter_cons_True by exact E. by rewrite IH.
Qed.

Lemma filter_replaced_links oid cats (l : list category_link) :
  filter (fun x => cl_observation_id x ≠ oid)
         (filter (fun x => cl_observation_id x ≠ oid) l ++ ReportView.category_rows oid cats)
  = filter (fun x => cl_observation_id x ≠ oid) l.
Proof.
  rewrite filter_app.
  assert (filter (fun x => cl_observation_id x ≠ oid) (ReportView.category_rows oid cats) = [])
    as ->.
  { induction cats as [|c cats IH]; [reflexivity|].
    simpl. rewrite filter_cons_False; [exact IH | by intros H; apply H]. }
  rewrite app_nil_r. apply list_filter_filter_l. done.
Qed.

Lemma filter_deleted_links oid (l : list category_link) :
  filter (fun x => cl_observation_id x ≠ oid) (filter (fun x => cl_observation_id x ≠ oid) l)
  = filter (fun x => cl_observation_id x ≠ oid) l.
Proof. apply list_filter_filter_l. done. Qed.

(** X16. Whatever happens during [handleSubmit] of the edit page, it adds and
    removes no observation and no action plan, and it leaves alone the rows,
    action plans and category links of every other observation, and the
    projects and companies. *)
Theorem update_touches_one_observation sanitize (s : ReportView.state) w oid :
  ReportView.id s = Some oid →
  let d := db w in
  let d' := db (world_after (ReportView.handleSubmit sanitize s) s w) in
  obs_id <$> observation_details d' = obs_id <$> observation_details d
  ∧ filter (fun r => obs_id r ≠ oid) (observation_details d')
    = filter (fun r => obs_id r ≠ oid) (observation_details d)
  ∧ ap_id <$> action_plans d' = ap_id <$> action_plans d
  ∧ filter (fun r => ap_observation_id r ≠ oid) (action_plans d')
    = filter (fun r => ap_observation_id r ≠ oid) (action_plans d)
  ∧ filter (fun l => cl_observation_id l ≠ oid) (observation_categories d')
    = filter (fun l => cl_observation_id l ≠ oid) (observation_categories d)
  ∧ projects d' = projects d
  ∧ companies d' = companies d.
Proof.
  intros Hid d d'. subst d d'. revert Hid.
  EditFlow.run_edit.
  all: intros Hid; simplify_eq.
  all: try (split_and!; reflexivity).
  all: unfold Backend.update_observation, Backend.update_plans_status,
         Backend.delete_categories; simpl.
  all: rewrite ?(fmap_update_same obs_id), ?(fmap_update_same ap_id),
         ?(filter_update_others obs_id), ?(filter_update_others ap_observation_id),
         ?filter_replaced_links, ?filter_deleted_links by reflexivity.
  all: split_and!; reflexivity.
Qed.

Lemma update_touches_one_observation_witness :
  let s := Examples.editing "o1" "closed" ["k3"] [] in
  let w := Examples.world_of Examples.small_db Examples.no_faults in
  let d' := db (world_after (ReportView.handleSubmit Examples.keep_name s) s w) in
  plans_of "o1" d' ≠ plans_of "o1" (db w)
  ∧ filter (fun r => ap_observation_id r ≠ "o1") (action_plans d')
    = [Examples.plan "a2" "o2" "open"]
  ∧ filter (fun l => cl_observation_id l ≠ "o1") (observation_categories d')
    = [ {| cl_observation_id := "o2"; cl_category_id := "k1" |} ].
Proof.
  intros s w d'. subst d'. split; [vm_compute; discriminate|].
  destruct (update_touches_one_observation Examples.keep_name s w "o1" eq_refl)
    as (_ & _ & _ & Hp & Hl & _).
  split; (etrans; [first [exact Hp | exact Hl] | vm_compute; reflexivity]).
Defined.

End EditPage.

(** ** More on the reports table *)

Module TablePage.
Import Backend Run Claims Properties.

(** X17. A click on a column header sorts by that column.  The first click on
    a column other than the current one sorts ascending; every further click
    on the same column reverses the direction, so that the third click gives
    the direction of the first. *)
Theorem sort_click_toggles k (s : SafetyReportsTable.state) w :
  let click s := state_after (SafetyReportsTable.handleSort k s) s w in
  let direction s := SafetyReportsTable.direction (SafetyReportsTable.sortConfig s) in
  let s1 := click s in
  let s2 := click s1 in
  let s3 := click s2 in
  SafetyReportsTable.key (SafetyReportsTable.sortConfig s1) = k
  ∧ (SafetyReportsTable.key (SafetyReportsTable.sortConfig s) ≠ k → direction s1 = "asc")
  ∧ (direction s1 = "asc" ∧ direction s2 = "desc" ∨ direction s1 = "desc" ∧ direction s2 = "asc")
  ∧ direction s3 = direction s1
  ∧ SafetyReportsTable.reports s3 = SafetyReportsTable.reports s
  ∧ SafetyReportsTable.currentPage s3 = SafetyReportsTable.currentPage s.
Proof.
  intros click direction s1 s2 s3. subst click direction s1 s2 s3.
  unfold state_after, SafetyReportsTable.handleSort, set_state. simpl.
  rewrite !(bool_decide_eq_true_2 (k = k)) by reflexivity. simpl.
  destruct (bool_decide (SafetyReportsTable.key (SafetyReportsTable.sortConfig s) = k)) eqn:Ek;
    destruct (bool_decide (SafetyReportsTable.direction (SafetyReportsTable.sortConfig s) = "asc"));
    simpl; split_and!; try reflexivity; try (by left); try (by right).
  all: intros Hk; apply bool_decide_eq_true in Ek; contradiction.
Qed.

(** X18. When the query fails, [loadReports] keeps the rows and the page
    count it had, stores "Failed to load reports" and stops loading. *)
Theorem failed_load_keeps_the_rows (s : SafetyReportsTable.state) w :
  faults w (length (trace w)) ≠ None →
  let s' := state_after (SafetyReportsTable.loadReports s) s w in
  SafetyReportsTable.reports s' = SafetyReportsTable.reports s
  ∧ SafetyReportsTable.totalPages s' = SafetyReportsTable.totalPages s
  ∧ SafetyReportsTable.error s' = "Failed to load reports"
  ∧ SafetyReportsTable.loading s' = false
  ∧ requests_of (SafetyReportsTable.loadReports s) s w
    = [SelectReports (SafetyReportsTable.build_query s)].
Proof.
  intros Hf s'. subst s'.
  ReportsTable.run_table.
  rewrite drop_app_length. split_and!; reflexivity.
Qed.

Lemma failed_load_keeps_the_rows_witness :
  let row := Examples.listed Examples.small_db (Examples.observation "o1" "open" "minor") in
  let s := Examples.table 1 [row] None in
  let w := Examples.world_of Examples.small_db (Examples.fail_at 0) in
  SafetyReportsTable.reports (state_after (SafetyReportsTable.loadReports s) s w) = [row]
  ∧ SafetyReportsTable.error (state_after (SafetyReportsTable.loadReports s) s w)
    = "Failed to load reports".
Proof.
  intros row s w.
  assert (H : faults w (length (trace w)) ≠ None) by (vm_compute; discriminate).
  destruct (failed_load_keeps_the_rows s w H) as (H1 & _ & H3 & _).
  split; [exact H1 | exact H3].
Defined.

(** *** What the store answers *)

Lemma elem_of_insert_sorted {A} (le : A → A → bool) (x y : A) (l : list A) :
  y ∈ insert_sorted le x l ↔ y = x ∨ y ∈ l.
Proof.
  induction l as [|z l IH]; simpl.
  - rewrite list_elem_of_singleton. rewrite elem_of_nil. tauto.
  - destruct (le x z).
    + by rewrite elem_of_cons.
    + rewrite !elem_of_cons, IH. tauto.
Qed.

Lemma elem_of_ordered key asc (l : list observation_row) r :
  r ∈ ordered key asc l ↔ r ∈ l.
Proof.
  unfold ordered. induction l as [|x l IH]; simpl; [reflexivity|].
  rewrite elem_of_insert_sorted, elem_of_cons, IH. reflexivity.
Qed.

Lemma elem_of_window {A} (range : Z * Z) (l : list A) (x : A) :
  x ∈ window range l → x ∈ l.
Proof.
  destruct range as [a b]. unfold window. intros H.
  apply subseteq_take, subseteq_drop in H. exact H.
Qed.

(** Every row of a reply comes from a stored observation that passes all the
    filters of the query. *)
Lemma reply_rows_match q d r :
  r ∈ rows (Backend.select_reports q d) →
  ∃ o, o ∈ observation_details d
    ∧ Forall (fun f => holds f o = true) (q_filters q)
    ∧ r = expand d o.
Proof.
  unfold Backend.select_reports. simpl.
  intros (o & -> & Ho)%list_elem_of_fmap.
  apply elem_of_window in Ho. unfold result_set in Ho.
  apply elem_of_ordered in Ho. unfold matching in Ho.
  apply list_elem_of_filter in Ho as [Hh Ho].
  exists o. split; [exact Ho|]. split; [|reflexivity].
  apply Forall_forall. intros f Hf.
  rewrite forallb_forall in Hh. apply Hh. by apply list_elem_of_In.
Qed.

Lemma applied_filters_elem f :
  (SafetyReportsTable.dateRange_start f ≠ "" →
   Gte "date" (SafetyReportsTable.dateRange_start f) ∈ SafetyReportsTable.applied_filters f)
  ∧ (SafetyReportsTable.dateRange_end f ≠ "" →
     Lte "date" (SafetyReportsTable.dateRange_end f) ∈ SafetyReportsTable.applied_filters f)
  ∧ (SafetyReportsTable.filter_status f ≠ "" →
     Eq "status" (SafetyReportsTable.filter_status f) ∈ SafetyReportsTable.applied_filters f)
  ∧ (SafetyReportsTable.severity f ≠ "" →
     Eq "consequences" (SafetyReportsTable.severity f) ∈ SafetyReportsTable.applied_filters f).
Proof.
  unfold SafetyReportsTable.applied_filters.
  split_and!; intros H; rewrite (CreatePage.truthy_true _ H);
    rewrite !elem_of_app, !elem_of_cons; tauto.
Qed.

Lemma window_page_length {A} (k : Z) (l : list A) :
  (length (window ((k - 1) * 10, (k - 1) * 10 + 10 - 1)%Z l) ≤ 10)%nat.
Proof.
  unfold window.
  replace ((k - 1) * 10 + 10 - 1 - (k - 1) * 10 + 1) with 10 by lia.
  rewrite length_take. lia.
Qed.

(** What a successful [loadReports] leaves on the page. *)
Lemma loaded_page (s : SafetyReportsTable.state) w :
  faults w (length (trace w)) = None →
  let s' := state_after (SafetyReportsTable.loadReports s) s w in
  SafetyReportsTable.reports s'
  = SafetyReportsTable.transform
      <$> rows (Backend.select_reports (SafetyReportsTable.build_query s) (db w))
  ∧ (length (SafetyReportsTable.reports s') ≤ 10)%nat
  ∧ SafetyReportsTable.currentPage s' = SafetyReportsTable.currentPage s
  ∧ SafetyReportsTable.totalPages s' = 0.
Proof.
  intros Hf s'. subst s'.
  ReportsTable.run_table.
  split_and!; try reflexivity.
  rewrite !length_fmap. apply window_page_length.
Qed.

(** X19. After a successful [loadReports] the table holds at most ten rows;
    each of them is a stored observation, and each of them passes every
    filter that is set: its status is the status filter, its consequences
    are the severity filter, and its date lies between the start and the end
    of the date range. *)
Theorem loaded_rows_pass_the_filters (s : SafetyReportsTable.state) w :
  faults w (length (trace w)) = None →
  let s' := state_after (SafetyReportsTable.loadReports s) s w in
  let f := SafetyReportsTable.filters s in
  (length (SafetyReportsTable.reports s') ≤ 10)%nat
  ∧ Forall (fun r =>
       (∃ o, o ∈ observation_details (db w) ∧ r = Examples.listed (db w) o)
       ∧ (SafetyReportsTable.filter_status f ≠ "" →
          SafetyReportsTable.status r = SafetyReportsTable.filter_status f)
       ∧ (SafetyReportsTable.severity f ≠ "" →
          SafetyReportsTable.consequences r = SafetyReportsTable.severity f)
       ∧ (SafetyReportsTable.dateRange_start f ≠ "" →
          String.leb (SafetyReportsTable.dateRange_start f) (SafetyReportsTable.date r) = true)
       ∧ (SafetyReportsTable.dateRange_end f ≠ "" →
          String.leb (SafetyReportsTable.date r) (SafetyReportsTable.dateRange_end f) = true))
     (SafetyReportsTable.reports s').
Proof.
  intros Hf s' f. subst s' f.
  destruct (loaded_page s w Hf) as (Hrows & Hlen & _).
  split; [exact Hlen|].
  - rewrite Hrows. apply Forall_fmap, Forall_forall. intros r Hr.
    apply reply_rows_match in Hr as (o & Ho & Hall & ->).
    rewrite Forall_forall in Hall. simpl in Hall.
    destruct (applied_filters_elem (SafetyReportsTable.filters s)) as (H1 & H2 & H3 & H4).
    split; [exists o; split; [exact Ho | reflexivity]|].
    split_and!; intros Hset.
    + specialize (Hall _ (H3 Hset)). simpl in Hall. by apply bool_decide_eq_true in Hall.
    + specialize (Hall _ (H4 Hset)). simpl in Hall. by apply bool_decide_eq_true in Hall.
    + exact (Hall _ (H1 Hset)).
    + exact (Hall _ (H2 Hset)).
Qed.

Lemma loaded_rows_pass_the_filters_witness :
  let s := MoreExamples.filtered_table 1 "open" "major" in
  let w := Examples.world_of Examples.small_db Examples.no_faults in
  let s' := state_after (SafetyReportsTable.loadReports s) s w in
  length (SafetyReportsTable.reports s') = 1%nat
  ∧ Forall (fun r => SafetyReportsTable.consequences r = "major")
           (SafetyReportsTable.reports s').
Proof.
  intros s w s'. split; [vm_compute; reflexivity|].
  destruct (loaded_rows_pass_the_filters s w eq_refl) as [_ H].
  eapply Forall_impl; [exact H|]. simpl.
  intros r (_ & _ & Hsev & _). apply Hsev. discriminate.
Defined.

(** X20. The two deletes of [confirmDelete] are separate requests.  When the
    first fails nothing is deleted.  When the first succeeds and the second
    fails, the action plans of the observation are gone while every
    observation row is still there.  In both cases the report stays selected
    for deletion and the page shows "Failed to delete report". *)
Theorem delete_can_stop_half_way (s : SafetyReportsTable.state) w report :
  SafetyReportsTable.reportToDelete s = Some report →
  let oid := SafetyReportsTable.id report in
  let n := length (trace w) in
  let w' := world_after (SafetyReportsTable.confirmDelete s) s w in
  let s' := state_after (SafetyReportsTable.confirmDelete s) s w in
  (faults w n ≠ None ∨ faults w (n + 1)%nat ≠ None →
   SafetyReportsTable.reportToDelete s' = Some report
   ∧ observation_details (db w') = observation_details (db w)
   ∧ events w' = events w ++ [ToastError "Failed to delete report"])
  ∧ (faults w n ≠ None → db w' = db w)
  ∧ (faults w n = None → faults w (n + 1)%nat ≠ None → plans_of oid (db w') = []).
Proof.
  intros Hr oid n w' s'. subst oid n w' s'. revert Hr.
  ReportsTable.run_table.
  all: intros Hr; simplify_eq.
  all: rewrite ?length_app in *; simpl in *.
  all: split_and!.
  all: try (intros [Hf|Hf]; congruence).
  all: try (intros Hf; congruence).
  all: try (intros Hf1 Hf2; congruence).
  all: try (intros; split_and!; first [reflexivity | assumption]).
  all: intros; apply ReportsTable.no_plans_after_delete.
Qed.

Lemma delete_can_stop_half_way_witness :
  let d := Examples.small_db in
  let target := Examples.listed d (Examples.observation "o1" "open" "minor") in
  let s := Examples.table 1 [target] (Some target) in
  let w := Examples.world_of d (Examples.fail_at 1) in
  let w' := world_after (SafetyReportsTable.confirmDelete s) s w in
  plans_of "o1" (db w') = []
  ∧ obs_id <$> observation_details (db w') = ["o1"; "o2"].
Proof.
  intros d target s w w'.
  destruct (delete_can_stop_half_way s w target eq_refl) as (H1 & _ & H3).
  split.
  - apply H3; [reflexivity | vm_compute; discriminate].
  - destruct H1 as (_ & Hobs & _); [right; vm_compute; discriminate|].
    etrans; [exact (f_equal (fmap obs_id) Hobs) | reflexivity].
Defined.

(** X21. [confirmDelete] without a report selected does nothing.  With one
    selected, whatever happens, it leaves alone the rows and action plans of
    every other observation, the projects and the companies; and none of its
    requests is about category links, which it leaves as they are, those of
    the deleted observation included. *)
Theorem delete_touches_one_observation (s : SafetyReportsTable.state) w :
  match SafetyReportsTable.reportToDelete s with
  | None => SafetyReportsTable.confirmDelete s (s, w) = (Ok tt, (s, w))
  | Some report =>
      let oid := SafetyReportsTable.id report in
      let d' := db (world_after (SafetyReportsTable.confirmDelete s) s w) in
      filter (fun r => obs_id r ≠ oid) (observation_details d')
      = filter (fun r => obs_id r ≠ oid) (observation_details (db w))
      ∧ filter (fun r => ap_observation_id r ≠ oid) (action_plans d')
        = filter (fun r => ap_observation_id r ≠ oid) (action_plans (db w))
      ∧ observation_categories d' = observation_categories (db w)
      ∧ Forall (fun r => ∀ o, r ≠ DeleteCategories o)
               (requests_of (SafetyReportsTable.confirmDelete s) s w)
      ∧ projects d' = projects (db w)
      ∧ companies d' = companies (db w)
  end.
Proof.
  destruct (SafetyReportsTable.reportToDelete s) as [report|] eqn:Hr.
  - revert Hr. ReportsTable.run_table.
    all: intros Hr; simplify_eq.
    all: rewrite <- ?app_assoc; rewrite drop_app_length.
    all: unfold Backend.delete_action_plans, Backend.delete_observation; simpl.
    all: rewrite ?list_filter_filter_l by done.
    all: split_and!; try reflexivity.
    all: repeat constructor; discriminate.
  - unfold SafetyReportsTable.confirmDelete. rewrite Hr. reflexivity.
Qed.

(** X22. When both deletes and the reload that follows succeed,
    [confirmDelete] sends exactly these three requests, clears the selection,
    shows the success toast, and the reloaded table no longer lists the
    deleted report. *)
Theorem deleted_report_leaves_the_table (s : SafetyReportsTable.state) w report :
  SafetyReportsTable.reportToDelete s = Some report →
  (∀ k, faults w k = None) →
  let oid := SafetyReportsTable.id report in
  let s' := state_after (SafetyReportsTable.confirmDelete s) s w in
  let w' := world_after (SafetyReportsTable.confirmDelete s) s w in
  requests_of (SafetyReportsTable.confirmDelete s) s w
  = [DeleteActionPlans oid; DeleteObservation oid;
     SelectReports (SafetyReportsTable.build_query s)]
  ∧ SafetyReportsTable.reportToDelete s' = None
  ∧ events w' = events w ++ [ToastSuccess "Report deleted successfully"]
  ∧ Forall (fun r => SafetyReportsTable.id r ≠ oid) (SafetyReportsTable.reports s').
Proof.
  intros Hr Hall oid s' w'. subst oid s' w'. revert Hr.
  ReportsTable.run_table.
  all: intros Hr; simplify_eq.
  all: try match goal with
       | H : faults _ _ = Some _ |- _ => rewrite Hall in H; discriminate H
       end.
  rewrite <- !app_assoc, drop_app_length. simpl.
  split_and!; try reflexivity.
  apply Forall_fmap, Forall_forall. intros r Hrow.
  match type of Hrow with
  | context [result_set ?q ?d] => apply (reply_rows_match q d) in Hrow as (o & Ho & _ & ->)
  end.
  simpl. by apply ReportsTable.observation_gone_after_delete in Ho.
Qed.

Lemma deleted_report_leaves_the_table_witness :
  let d := Examples.small_db in
  let target := Examples.listed d (Examples.observation "o1" "open" "minor") in
  let s := Examples.table 1 [target] (Some target) in
  let w := Examples.world_of d Examples.no_faults in
  let s' := state_after (SafetyReportsTable.confirmDelete s) s w in
  SafetyReportsTable.id <$> SafetyReportsTable.reports s' = ["o2"]
  ∧ Forall (fun r => SafetyReportsTable.id r ≠ "o1") (SafetyReportsTable.reports s').
Proof.
  intros d target s w s'. split; [vm_compute; reflexivity|].
  apply (deleted_report_leaves_the_table s w target eq_refl (fun _ => eq_refl)).
Defined.

(** X23. When the date or the creation date of one loaded row cannot be
    formatted, [exportToCSV] throws: no file is written and the page is left
    as it was. *)
Theorem export_needs_valid_dates format_PPP today (s : SafetyReportsTable.state) w :
  Exists (fun r => format_PPP (SafetyReportsTable.date r) = None
                   ∨ format_PPP (SafetyReportsTable.created_at r) = None)
         (SafetyReportsTable.reports s) →
  ∃ e, SafetyReportsTable.exportToCSV format_PPP today s (s, w) = (Threw e, (s, w)).
Proof.
  intros Hbad. eexists. unfold SafetyReportsTable.exportToCSV.
  rewrite (mapM_None_2 (SafetyReportsTable.export_row format_PPP)); [reflexivity|].
  eapply Exists_impl; [exact Hbad|]. simpl.
  intros r [H|H]; unfold SafetyReportsTable.export_row; rewrite H; [reflexivity|].
  by destruct (format_PPP (SafetyReportsTable.date r)).
Qed.

Lemma export_needs_valid_dates_witness :
  let good := Examples.listed Examples.small_db (Examples.observation "o1" "open" "minor") in
  let bad := SafetyReportsTable.transform
               {| rr_id := "o9"; rr_subject := "SOP"; rr_submitter_name := "Dana";
                  rr_date := ""; rr_description := "Spill"; rr_consequences := "minor";
                  rr_status := "open"; rr_created_at := "2024-05-01T08:00:00Z";
                  rr_projects := []; rr_companies := []; rr_action_plans := None |} in
  let s := Examples.table 1 [good; bad] None in
  let w := Examples.world_of Examples.small_db Examples.no_faults in
  events (world_after (SafetyReportsTable.exportToCSV Examples.show_date Examples.show_day s)
            s w) = [].
Proof.
  intros good bad s w.
  destruct (export_needs_valid_dates Examples.show_date Examples.show_day s w) as [e He].
  - apply Exists_cons_tl, Exists_cons_hd. left. reflexivity.
  - unfold world_after. rewrite He. reflexivity.
Defined.

(** X24. The line under the table after a successful [loadReports] of page
    [k]: its total counts the loaded rows only, at most ten, and from page
    two on its "to" row number is below its "from" row number. *)
Theorem showing_line_after_load (s : SafetyReportsTable.state) w :
  faults w (length (trace w)) = None →
  1 ≤ SafetyReportsTable.currentPage s →
  let s' := state_after (SafetyReportsTable.loadReports s) s w in
  let line := SafetyReportsTablePager.footer s' in
  SafetyReportsTablePager.from line = (SafetyReportsTable.currentPage s - 1) * 10 + 1
  ∧ SafetyReportsTablePager.total line
    = Z.of_nat (length (SafetyReportsTable.reports s'))
  ∧ SafetyReportsTablePager.total line ≤ 10
  ∧ (2 ≤ SafetyReportsTable.currentPage s →
     SafetyReportsTablePager.to line < SafetyReportsTablePager.from line).
Proof.
  intros Hf Hk s' line. subst line.
  destruct (loaded_page s w Hf) as (_ & Hlen & Hcur & _).
  fold s' in Hlen, Hcur.
  unfold SafetyReportsTablePager.footer, SafetyReportsTable.reportsPerPage. simpl.
  rewrite Hcur. split_and!; [reflexivity | reflexivity | lia | lia].
Qed.

(** Page 2 of eleven observations: one row is loaded, and the line reads
    "Showing 11 to 1 of 1 results". *)
Lemma showing_line_after_load_witness :
  let s := Examples.table 2 [] None in
  let w := Examples.world_of Examples.eleven_db Examples.no_faults in
  let s' := state_after (SafetyReportsTable.loadReports s) s w in
  SafetyReportsTablePager.footer s'
  = {| SafetyReportsTablePager.from := 11; SafetyReportsTablePager.to := 1;
       SafetyReportsTablePager.total := 1 |}
  ∧ SafetyReportsTablePager.to (SafetyReportsTablePager.footer s')
    < SafetyReportsTablePager.from (SafetyReportsTablePager.footer s').
Proof.
  intros s w s'. split; [vm_compute; reflexivity|].
  assert (Hk : 1 ≤ SafetyReportsTable.currentPage s) by (simpl; lia).
  apply (showing_line_after_load s w eq_refl Hk). simpl. lia.
Defined.

(** X30. The page buttons after a successful [loadReports] of a page [k] of
    at least one: no page-number button is shown, "Next" is not disabled,
    and "Previous" is disabled on page one only. *)
Theorem page_buttons_after_load (s : SafetyReportsTable.state) w :
  faults w (length (trace w)) = None →
  1 ≤ SafetyReportsTable.currentPage s →
  let s' := state_after (SafetyReportsTable.loadReports s) s w in
  SafetyReportsTablePager.page_buttons s' = []
  ∧ SafetyReportsTablePager.next_disabled s' = false
  ∧ SafetyReportsTablePager.previous_disabled s'
    = bool_decide (SafetyReportsTable.currentPage s = 1).
Proof.
  intros Hf Hk s'.
  destruct (loaded_page s w Hf) as (_ & _ & Hcur & Htot).
  fold s' in Hcur, Htot.
  unfold SafetyReportsTablePager.page_buttons, SafetyReportsTablePager.next_disabled,
    SafetyReportsTablePager.previous_disabled.
  rewrite Htot, Hcur. split_and!; [reflexivity | | reflexivity].
  apply bool_decide_eq_false. lia.
Qed.

Lemma page_buttons_after_load_witness :
  let s := Examples.table 1 [] None in
  let w := Examples.world_of Examples.eleven_db Examples.no_faults in
  let s' := state_after (SafetyReportsTable.loadReports s) s w in
  length (SafetyReportsTable.reports s') = 10%nat
  ∧ SafetyReportsTablePager.page_buttons s' = []
  ∧ SafetyReportsTablePager.next_disabled s' = false.
Proof.
  intros s w s'. split; [vm_compute; reflexivity|].
  assert (Hk : 1 ≤ SafetyReportsTable.currentPage s) by (simpl; lia).
  destruct (page_buttons_after_load s w eq_refl Hk) as (H1 & H2 & _).
  split; [exact H1 | exact H2].
Defined.

End TablePage.

(** ** More on the images of the PDF document *)

Module PdfImages.
Import Backend Run Claims Properties.

(** [loadImage] catches whatever its body throws. *)
Lemma loadImage_returns base src b u w :
  ∃ r u' w', SafetyReportPDF.loadImage base src b (u, w) = (Ok r, (u', w')).
Proof.
  unfold SafetyReportPDF.loadImage, try_catch.
  destruct (bind _ _ (u, w)) as [[r|e] [u' w']]; simpl; eauto.
Qed.

(** X25. [loadImage] never throws.  When it sends a fetch and the fetch fails
    or is answered with a status that is not ok, it returns null and leaves
    the cache as it was, an outdated entry included. *)
Theorem failed_fetch_gives_null base (u : SafetyReportPDF.state) w src b :
  let run := SafetyReportPDF.loadImage base src b (u, w) in
  (∃ r, run.1 = Ok r)
  ∧ (∀ a, requests_of (SafetyReportPDF.loadImage base src b) u w = [Fetch a] →
          faults w (length (trace w)) ≠ None ∨ web w a = None →
          run.1 = Ok None ∧ run.2.1 = u).
Proof.
  intros run. subst run. split.
  - destruct (loadImage_returns base src b u w) as (r & u' & w' & ->). eauto.
  - intros a. ImageCache.run_pdf.
    all: rewrite ?drop_all, ?drop_app_length.
    all: intros Ha Hbad; simplify_eq.
    all: try (split; reflexivity).
    all: destruct Hbad; congruence.
Qed.

(** X26. A source that is a data URL is returned as it is: nothing is
    fetched and nothing is cached. *)
Theorem data_url_is_passed_through base (u : SafetyReportPDF.state) w src b :
  reachable base u →
  Js.startsWith src "data:image" = true →
  SafetyReportPDF.loadImage base src b (u, w) = (Ok (Some src), (u, w)).
Proof.
  intros Hr Hdata.
  assert (Hmiss : SafetyReportPDF.imageCache u !! src = None).
  { destruct (SafetyReportPDF.imageCache u !! src) as [e|] eqn:E; [|reflexivity].
    pose proof (ImageCache.reachable_no_data_keys base u Hr src e E). congruence. }
  unfold SafetyReportPDF.loadImage, try_catch, bind, SafetyReportPDF.get_cache, date_now.
  simpl. unfold SafetyReportPDF.cache_hit. rewrite Hmiss, Hdata. reflexivity.
Qed.

Lemma data_url_is_passed_through_witness :
  SafetyReportPDF.loadImage Examples.base_url Examples.png true
    (Examples.warmed, Examples.online 5000)
  = (Ok (Some Examples.png), (Examples.warmed, Examples.online 5000)).
Proof.
  apply data_url_is_passed_through; [|reflexivity].
  apply (reach_load Examples.base_url _ (Examples.online 1000) "pic.png" false).
  apply reach_start.
Defined.

(** X27. The first load of a source that is not a data URL fetches the
    resolved address; when the fetch succeeds the converted picture is
    returned and stored under the source, stamped with the time at which the
    fetch returned, and the other entries of the cache are left alone. *)
Theorem first_load_fills_the_cache base (u : SafetyReportPDF.state) w src b body :
  SafetyReportPDF.imageCache u !! src = None →
  Js.startsWith src "data:image" = false →
  faults w (length (trace w)) = None →
  web w (SafetyReportPDF.resolve base src b) = Some body →
  let run := SafetyReportPDF.loadImage base src b (u, w) in
  run.1 = Ok (Some body)
  ∧ requests_of (SafetyReportPDF.loadImage base src b) u w
    = [Fetch (SafetyReportPDF.resolve base src b)]
  ∧ SafetyReportPDF.imageCache run.2.1
    = <[src := {| SafetyReportPDF.url := body;
                  SafetyReportPDF.timestamp
                    := clock w + latency w (length (trace w)) |}]>
        (SafetyReportPDF.imageCache u).
Proof.
  intros Hmiss Hdata Hf Hweb run. subst run.
  unfold requests_of, SafetyReportPDF.loadImage, try_catch, bind,
    SafetyReportPDF.get_cache, date_now, Api.fetch, rpc.
  simpl. unfold SafetyReportPDF.cache_hit. rewrite Hmiss, Hdata, Hf. simpl.
  rewrite Hweb. simpl. rewrite drop_app_length. split_and!; reflexivity.
Qed.

Lemma first_load_fills_the_cache_witness :
  let u := {| SafetyReportPDF.imageCache := ∅ |} in
  let run := SafetyReportPDF.loadImage Examples.base_url "pic.png" false
               (u, Examples.online 1000) in
  run.1 = Ok (Some Examples.png)
  ∧ SafetyReportPDF.imageCache run.2.1 !! "pic.png"
    = Some {| SafetyReportPDF.url := Examples.png; SafetyReportPDF.timestamp := 1120 |}.
Proof.
  intros u run.
  destruct (first_load_fills_the_cache Examples.base_url u (Examples.online 1000)
              "pic.png" false Examples.png eq_refl eq_refl eq_refl eq_refl) as (H1 & _ & H3).
  split; [exact H1|].
  subst run. rewrite H3. apply lookup_insert_eq.
Defined.

Lemma append_inj_l (p a b : string) : p +:+ a = p +:+ b → a = b.
Proof.
  induction p as [|c p IH]; simpl; [done|].
  intros [= H]. by apply IH.
Qed.

Lemma buckets_differ base src :
  Js.startsWith src "http" = false →
  SafetyReportPDF.resolve base src true ≠ SafetyReportPDF.resolve base src false.
Proof.
  intros Hhttp. unfold SafetyReportPDF.resolve. rewrite Hhttp.
  intros H. apply append_inj_l in H. simpl in H. discriminate H.
Qed.

(** X28. The cache is keyed by the source alone.  After a storage key has
    been loaded as an observation image, loading the same key as an
    action-plan image within five minutes returns the picture fetched from
    the observation bucket and sends no request, although the action-plan
    bucket has a different address. *)
Theorem cache_ignores_the_bucket base (u : SafetyReportPDF.state) w w2 src body :
  SafetyReportPDF.imageCache u !! src = None →
  Js.startsWith src "data:image" = false →
  Js.startsWith src "http" = false →
  faults w (length (trace w)) = None →
  web w (SafetyReportPDF.resolve base src false) = Some body →
  clock w2 - (clock w + latency w (length (trace w))) < SafetyReportPDF.CACHE_TTL →
  let u1 := state_after (SafetyReportPDF.loadImage base src false) u w in
  SafetyReportPDF.resolve base src true ≠ SafetyReportPDF.resolve base src false
  ∧ SafetyReportPDF.loadImage base src true (u1, w2) = (Ok (Some body), (u1, w2)).
Proof.
  intros Hmiss Hdata Hhttp Hf Hweb Hfresh u1.
  split; [by apply buckets_differ|].
  assert (He : SafetyReportPDF.imageCache u1 !! src
               = Some {| SafetyReportPDF.url := body;
                         SafetyReportPDF.timestamp
                           := clock w + latency w (length (trace w)) |}).
  { subst u1. unfold state_after, SafetyReportPDF.loadImage, try_catch, bind,
      SafetyReportPDF.get_cache, date_now, Api.fetch, rpc.
    simpl. unfold SafetyReportPDF.cache_hit. rewrite Hmiss, Hdata, Hf. simpl.
    rewrite Hweb. simpl. apply lookup_insert_eq. }
  unfold SafetyReportPDF.loadImage, try_catch, bind, SafetyReportPDF.get_cache, date_now.
  simpl. rewrite (ImageCache.cache_hit_fresh _ _ _ _ He Hfresh). reflexivity.
Qed.

Lemma cache_ignores_the_bucket_witness :
  let u := {| SafetyReportPDF.imageCache := ∅ |} in
  let u1 := state_after (SafetyReportPDF.loadImage Examples.base_url "pic.png" false)
              u (Examples.online 1000) in
  requests_of (SafetyReportPDF.loadImage Examples.base_url "pic.png" true)
    u1 (Examples.online 2000) = []
  ∧ SafetyReportPDF.loadImage Examples.base_url "pic.png" true (u1, Examples.online 2000)
    = (Ok (Some Examples.png), (u1, Examples.online 2000)).
Proof.
  intros u u1. split; [vm_compute; reflexivity|].
  apply (cache_ignores_the_bucket Examples.base_url u (Examples.online 1000)
           (Examples.online 2000) "pic.png" Examples.png);
    try reflexivity.
Defined.

(** *** Loading and showing *)

(** An assignment adds no own property but the one it names, and never an
    own "__proto__". *)
Lemma set_keys k v (o : gmap string string) j :
  is_Some (JsObject.set k v o !! j) → j = k ∨ is_Some (o !! j).
Proof.
  unfold JsObject.set.
  destruct (o !! k); [|case_bool_decide; [by right|]];
    rewrite lookup_insert; case_decide; auto.
Qed.

Lemma set_no_own_proto k v (o : gmap string string) :
  o !! "__proto__" = None → JsObject.set k v o !! "__proto__" = None.
Proof.
  intros Ho. unfold JsObject.set.
  destruct (o !! k) eqn:Ek; [|case_bool_decide as Hk; [done|]];
    rewrite lookup_insert; case_decide; congruence.
Qed.

Lemma on_cache_loadImage_returns base src b c w :
  ∃ r c' w', SafetyReportPDFView.on_cache (SafetyReportPDF.loadImage base src b) (c, w)
             = (Ok r, (c', w'))
             ∧ SafetyReportPDFView.imageUrls c' = SafetyReportPDFView.imageUrls c.
Proof.
  unfold SafetyReportPDFView.on_cache.
  destruct (loadImage_returns base src b (SafetyReportPDFView.cache c) w)
    as (r & u' & w' & ->).
  eauto.
Qed.

(** The plan loop returns an object whose new own properties are named by
    plan ids, none of them "__proto__", and leaves [imageUrls] alone. *)
Lemma load_plan_images_keys base plans urls c w :
  ∃ urls' c' w',
    SafetyReportPDFView.load_plan_images base plans urls (c, w) = (Ok urls', (c', w'))
    ∧ SafetyReportPDFView.imageUrls c' = SafetyReportPDFView.imageUrls c
    ∧ (urls !! "__proto__" = None → urls' !! "__proto__" = None)
    ∧ ∀ k, is_Some (urls' !! k) →
           is_Some (urls !! k)
           ∨ ∃ p, p ∈ plans ∧ SafetyReportPDFView.plan_id p = Some k.
Proof.
  revert urls c w. induction plans as [|p plans IH]; intros urls c w.
  - exists urls, c, w. simpl. split; [reflexivity|]. split; [reflexivity|]. auto.
  - simpl.
    assert (Hskip : ∃ urls' c' w',
      SafetyReportPDFView.load_plan_images base plans urls (c, w) = (Ok urls', (c', w'))
      ∧ SafetyReportPDFView.imageUrls c' = SafetyReportPDFView.imageUrls c
      ∧ (urls !! "__proto__" = None → urls' !! "__proto__" = None)
      ∧ ∀ k, is_Some (urls' !! k) →
             is_Some (urls !! k)
             ∨ ∃ q, q ∈ p :: plans ∧ SafetyReportPDFView.plan_id q = Some k).
    { destruct (IH urls c w) as (urls' & c' & w' & E & Hc & Hp & Hk).
      exists urls', c', w'. split; [exact E|]. split; [exact Hc|]. split; [exact Hp|].
      intros k Hs. destruct (Hk k Hs) as [?|(q & Hq & ?)]; [by left|].
      right. exists q. split; [by apply list_elem_of_further | done]. }
    destruct (SafetyReportPDFView.present (SafetyReportPDFView.plan_supporting_image p))
      as [src|] eqn:Esrc; [|exact Hskip].
    destruct (SafetyReportPDFView.present (SafetyReportPDFView.plan_id p))
      as [id|] eqn:Eid; [|exact Hskip].
    unfold bind at 1.
    destruct (on_cache_loadImage_returns base src true c w) as (r & c1 & w1 & -> & Hc1).
    destruct (SafetyReportPDFView.present r) as [v|].
    + destruct (IH (JsObject.set id v urls) c1 w1) as (urls' & c' & w' & E & Hc & Hp & Hk).
      exists urls', c', w'. split; [exact E|]. split; [congruence|].
      split; [intros Ho; by apply Hp, set_no_own_proto|].
      intros k Hs. destruct (Hk k Hs) as [Hin|(q & Hq & ?)].
      * apply set_keys in Hin as [Ek|Hin]; [|by left].
        right. exists p. split; [apply list_elem_of_here|].
        subst k. unfold SafetyReportPDFView.present in Eid.
        destruct (SafetyReportPDFView.plan_id p) as [i|]; [|discriminate].
        destruct (Js.truthy i); congruence.
      * right. exists q. split; [by apply list_elem_of_further | done].
    + destruct (IH urls c1 w1) as (urls' & c' & w' & E & Hc & Hp & Hk).
      exists urls', c', w'. split; [exact E|]. split; [congruence|]. split; [exact Hp|].
      intros k Hs. destruct (Hk k Hs) as [?|(q & Hq & ?)]; [by left|].
      right. exists q. split; [by apply list_elem_of_further | done].
Qed.

(** What [loadImages] leaves in [imageUrls]. *)
Lemma loadImages_keys base image plans c w :
  let c' := state_after (SafetyReportPDFView.loadImages base image plans) c w in
  SafetyReportPDFView.imageUrls c' !! "__proto__" = None
  ∧ ∀ k, is_Some (SafetyReportPDFView.imageUrls c' !! k) →
         k = "main" ∨ ∃ p, p ∈ plans ∧ SafetyReportPDFView.plan_id p = Some k.
Proof.
  intros c'. subst c'. unfold state_after.
  assert (Hmain : ∃ urls0 c0 w0,
    (match SafetyReportPDFView.present image with
     | Some src =>
         bind (SafetyReportPDFView.on_cache (SafetyReportPDF.loadImage base src false))
              (fun mainImageUrl =>
                 match SafetyReportPDFView.present mainImageUrl with
                 | Some u => ret (JsObject.set "main" u (∅ : gmap string string))
                 | None => ret ∅
                 end)
     | None => ret ∅
     end) (c, w) = (Ok urls0, (c0, w0))
    ∧ urls0 !! "__proto__" = None
    ∧ ∀ j, is_Some (urls0 !! j) → j = "main").
  { destruct (SafetyReportPDFView.present image) as [src|].
    - unfold bind.
      destruct (on_cache_loadImage_returns base src false c w) as (r & c1 & w1 & -> & _).
      destruct (SafetyReportPDFView.present r) as [v|]; do 3 eexists; (split; [reflexivity|]).
      + split; [apply set_no_own_proto, lookup_empty|].
        intros j [Hj|Hj]%set_keys; [done|].
        rewrite lookup_empty in Hj. by destruct Hj.
      + split; [apply lookup_empty|].
        intros j. rewrite lookup_empty. by intros [? ?].
    - exists ∅, c, w. split; [reflexivity|]. split; [apply lookup_empty|].
      intros j. rewrite lookup_empty. by intros [? ?]. }
  destruct Hmain as (urls0 & c0 & w0 & Emain & Hproto0 & Hkeys0).
  destruct (load_plan_images_keys base plans urls0 c0 w0)
    as (urls' & c1 & w1 & E & _ & Hp & Hk).
  assert (Hrun : SafetyReportPDFView.loadImages base image plans (c, w)
                 = (Ok tt, (SafetyReportPDFView.setImageUrls urls' c1, w1))).
  { unfold SafetyReportPDFView.loadImages.
    unfold bind at 1. rewrite Emain. unfold bind. rewrite E. reflexivity. }
  rewrite Hrun. simpl.
  split; [by apply Hp|].
  intros k Hs. destruct (Hk k Hs) as [H0|H1]; [left; by apply Hkeys0 | by right].
Qed.

(** X29. [loadImages] files the main picture under "main" and the picture of
    an action plan under the id of the plan, never under "__proto__", while
    [renderImage] looks a picture up under its source.  So for a source that
    is neither empty nor "main" nor the id of an action plan of the report,
    [renderImage] never shows a loaded picture: it shows the placeholder,
    unless the source is the name of a property every object inherits, in
    which case it hands that inherited value to the image element. *)
Theorem pictures_are_filed_under_other_keys base image plans
    (c : SafetyReportPDFView.component) w :
  let c' := state_after (SafetyReportPDFView.loadImages base image plans) c w in
  (∀ k, is_Some (SafetyReportPDFView.imageUrls c' !! k) →
        k = "main" ∨ ∃ p, p ∈ plans ∧ SafetyReportPDFView.plan_id p = Some k)
  ∧ SafetyReportPDFView.imageUrls c' !! "__proto__" = None
  ∧ (∀ src, src ≠ "" → src ≠ "main" →
            (∀ p, p ∈ plans → SafetyReportPDFView.plan_id p ≠ Some src) →
            SafetyReportPDFView.renderImage c' src
            = if bool_decide (src ∈ JsObject.prototype_keys)
              then SafetyReportPDFView.Image (JsObject.Inherited src)
              else SafetyReportPDFView.Placeholder).
Proof.
  intros c'.
  destruct (loadImages_keys base image plans c w) as [Hproto Hkeys].
  split; [exact Hkeys|]. split; [exact Hproto|].
  intros src Hne Hmain Hids.
  unfold SafetyReportPDFView.renderImage, JsObject.get.
  rewrite (CreatePage.truthy_true _ Hne).
  destruct (SafetyReportPDFView.imageUrls c' !! src) as [v|] eqn:E.
  - exfalso.
    destruct (Hkeys src) as [?|(p & Hp & Hid)];
      [exists v; exact E | done | by apply (Hids p Hp)].
  - by case_bool_decide.
Qed.

(** The report has a main picture and one pictured action plan; both are
    loaded, and [renderImage] shows the placeholder for both sources.  For a
    picture stored as "constructor" it passes on the inherited function. *)
Lemma pictures_are_filed_under_other_keys_witness :
  let c' := state_after
              (SafetyReportPDFView.loadImages Examples.base_url (Some "pic.png")
                 [MoreExamples.pictured_plan])
              MoreExamples.fresh_component (Examples.online 1000) in
  SafetyReportPDFView.imageUrls c' !! "main" = Some Examples.png
  ∧ SafetyReportPDFView.imageUrls c' !! "a1" = Some Examples.png
  ∧ SafetyReportPDFView.renderImage c' "pic.png" = SafetyReportPDFView.Placeholder
  ∧ SafetyReportPDFView.renderImage c' "fence.png" = SafetyReportPDFView.Placeholder
  ∧ SafetyReportPDFView.renderImage c' "constructor"
    = SafetyReportPDFView.Image (JsObject.Inherited "constructor").
Proof.
  intros c'.
  split; [vm_compute; reflexivity|]. split; [vm_compute; reflexivity|].
  destruct (pictures_are_filed_under_other_keys Examples.base_url (Some "pic.png")
              [MoreExamples.pictured_plan] MoreExamples.fresh_component
              (Examples.online 1000)) as (_ & _ & H).
  assert (Hids : ∀ src, src ≠ "a1" →
            ∀ p, p ∈ [MoreExamples.pictured_plan] →
                 SafetyReportPDFView.plan_id p ≠ Some src).
  { intros src Hsrc p ->%list_elem_of_singleton. simpl. congruence. }
  split; [exact (H "pic.png" ltac:(discriminate) ltac:(discriminate)
                   (Hids "pic.png" ltac:(discriminate)))|].
  split; [exact (H "fence.png" ltac:(discriminate) ltac:(discriminate)
                   (Hids "fence.png" ltac:(discriminate)))|].
  exact (H "constructor" ltac:(discriminate) ltac:(discriminate)
           (Hids "constructor" ltac:(discriminate))).
Defined.

End PdfImages.
